(** * Hospital management services: patient-api and appointment-api

    A shallow embedding of the two Flask services of the repository
    ([patient-api/app.py] and [appointment-api/app.py]) and of the part of
    the SQL Server database their statements rely on, followed by the
    properties of the REST data-access contract.

    The view functions are written in a small state-and-exception monad over
    a [world]: the database tables, the session value [@@IDENTITY], the
    cursor's result set and a trace of the calls made to the driver. *)

From Stdlib Require Import ZArith List String Ascii Bool Lia DecimalString.
Import ListNotations.

Local Open Scope string_scope.
Local Open Scope list_scope.
Local Open Scope Z_scope.

Set Warnings "-register-all".

(** ** JSON values and Python's view of them *)

Module Json.

(** A parsed JSON document, as [request.json] hands it to a view and as
    [jsonify] takes it back.  [None] and JSON [null] are the same value.
    Numbers are the integral ones. *)
Inductive json : Type :=
| JNull
| JBool (b : bool)
| JInt (z : Z)
| JStr (s : string)
| JArr (items : list json)
| JObj (fields : list (string * json)).

(** Lookup in a parsed object.  The parser keeps the last occurrence of a
    repeated key. *)
Fixpoint lookup (k : string) (fields : list (string * json)) : option json :=
  match fields with
  | [] => None
  | (k', v) :: rest =>
      match lookup k rest with
      | Some v' => Some v'
      | None => if String.eqb k k' then Some v else None
      end
  end.

End Json.
Import Json.

(** ** The SQL Server side: column types, CONVERT, tables *)

Module Sql.

(** A value in a result set, as the driver hands it to Python: [None], an
    [int], a [str], or a [decimal.Decimal] for a column of type numeric. *)
Inductive cell : Type :=
| CNull
| CInt (z : Z)
| CText (s : string)
| CDecimal (z : Z).

(** [str] of an integral [Decimal]: its decimal numeral. *)
Definition decimal_string (z : Z) : string :=
  NilZero.string_of_int (Z.to_int z).

(** [DATE] and [TIME] column values. *)
Record date : Type := mkDate { year : Z; month : Z; day : Z }.
Record time : Type := mkTime { hour : Z; minute : Z; second : Z }.

Definition leap (y : Z) : bool :=
  ((y mod 4 =? 0) && negb (y mod 100 =? 0)) || (y mod 400 =? 0).

Definition days_in_month (y m : Z) : Z :=
  match m with
  | 2 => if leap y then 29 else 28
  | 4 | 6 | 9 | 11 => 30
  | _ => 31
  end.

(** The range of the [DATE] type: 0001-01-01 to 9999-12-31. *)
Definition valid_date (d : date) : bool :=
  (1 <=? year d) && (year d <=? 9999) &&
  (1 <=? month d) && (month d <=? 12) &&
  (1 <=? day d) && (day d <=? days_in_month (year d) (month d)).

Definition valid_time (t : time) : bool :=
  (0 <=? hour t) && (hour t <=? 23) &&
  (0 <=? minute t) && (minute t <=? 59) &&
  (0 <=? second t) && (second t <=? 59).

(** The range of the [INT] type. *)
Definition int_range (z : Z) : bool :=
  (-2147483648 <=? z) && (z <=? 2147483647).

(** *** Decimal digits *)

Definition is_digit (c : ascii) : bool :=
  ((48 <=? nat_of_ascii c) && (nat_of_ascii c <=? 57))%nat.

Definition digit_value (c : ascii) : option Z :=
  if is_digit c then Some (Z.of_nat (nat_of_ascii c) - 48) else None.

Definition digit (z : Z) : ascii :=
  match z with
  | 0 => "0" | 1 => "1" | 2 => "2" | 3 => "3" | 4 => "4"
  | 5 => "5" | 6 => "6" | 7 => "7" | 8 => "8" | _ => "9"
  end%char.

(** Two and four decimal digits, left-padded with zeros. *)
Definition pad2 (z : Z) : list ascii :=
  [digit (z / 10 mod 10); digit (z mod 10)].

Definition pad4 (z : Z) : list ascii :=
  [digit (z / 1000 mod 10); digit (z / 100 mod 10);
   digit (z / 10 mod 10); digit (z mod 10)].

Definition number2 (a b : ascii) : option Z :=
  match digit_value a, digit_value b with
  | Some x, Some y => Some (10 * x + y)
  | _, _ => None
  end.

Definition number4 (a b c d : ascii) : option Z :=
  match number2 a b, number2 c d with
  | Some x, Some y => Some (100 * x + y)
  | _, _ => None
  end.

(** *** CONVERT *)

(** [CONVERT(VARCHAR(10), date, 120)]: style 120 is
    [yyyy-mm-dd hh:mi:ss], cut to the width of the target type. *)
Definition convert_date_120 (d : date) : string :=
  string_of_list_ascii
    (firstn 10 (pad4 (year d) ++ ["-"%char] ++ pad2 (month d)
                ++ ["-"%char] ++ pad2 (day d))).

(** [CONVERT(VARCHAR(5), time, 108)]: style 108 is [hh:mi:ss], cut to
    five characters. *)
Definition convert_time_108 (t : time) : string :=
  string_of_list_ascii
    (firstn 5 (pad2 (hour t) ++ [":"%char] ++ pad2 (minute t)
               ++ [":"%char] ++ pad2 (second t))).

(** *** Character literals the server reads whatever the session language *)

(** [YYYY-MM-DD]. *)
Definition iso_date (s : string) : option date :=
  match list_ascii_of_string s with
  | [y1; y2; y3; y4; s1; m1; m2; s2; d1; d2] =>
      if Ascii.eqb s1 "-" && Ascii.eqb s2 "-" then
        match number4 y1 y2 y3 y4, number2 m1 m2, number2 d1 d2 with
        | Some y, Some m, Some d => Some (mkDate y m d)
        | _, _, _ => None
        end
      else None
  | _ => None
  end.

(** [hh:mm] and [hh:mm:ss]. *)
Definition iso_time (s : string) : option time :=
  match list_ascii_of_string s with
  | [h1; h2; s1; m1; m2] =>
      if Ascii.eqb s1 ":" then
        match number2 h1 h2, number2 m1 m2 with
        | Some h, Some m => Some (mkTime h m 0)
        | _, _ => None
        end
      else None
  | [h1; h2; s1; m1; m2; s2; c1; c2] =>
      if Ascii.eqb s1 ":" && Ascii.eqb s2 ":" then
        match number2 h1 h2, number2 m1 m2, number2 c1 c2 with
        | Some h, Some m, Some c => Some (mkTime h m c)
        | _, _, _ => None
        end
      else None
  | _ => None
  end.

(** *** Parameter binding

    A statement parameter arrives as a Python value and is converted to
    the type of its column.  [None] becomes NULL; an integer goes to an
    [INT] column and a string to a [VARCHAR] column as they are, and the
    literals above to [DATE] and [TIME].  Every other pairing of a value
    with a column (a numeric string for an [INT] column, a date in
    another notation, a boolean, ...) is an implicit conversion of the
    driver and the server, which the services do not control: it is a
    parameter of the model.  Whatever it answers, the column keeps its
    own range. *)
Record conversions : Type := {
  to_int : json -> option Z;
  to_varchar : json -> option string;
  to_date : json -> option date;
  to_time : json -> option time }.

(** The conversions that refuse every value. *)
Definition strict : conversions :=
  {| to_int := fun _ => None;
     to_varchar := fun _ => None;
     to_date := fun _ => None;
     to_time := fun _ => None |}.

Definition checked {A} (ok : A -> bool) (o : option A) : option (option A) :=
  match o with
  | Some a => if ok a then Some (Some a) else None
  | None => None
  end.


Definition is_blank (c : ascii) : bool := Ascii.eqb c " ".

(** A string going into [VARCHAR(n)]: blanks at the end that pass the width
    are dropped without a word, anything else that passes it is an error
    (string data, right truncation).  Strings are sequences of bytes in the
    code page of the column. *)
Definition store_varchar (n : nat) (s : string) : option (option string) :=
  let chars := list_ascii_of_string s in
  if forallb is_blank (skipn n chars)
  then Some (Some (string_of_list_ascii (firstn n chars)))
  else None.

(** The outer [option] is acceptance by the server, the inner one NULL. *)
Definition bind_int (cv : conversions) (v : json) : option (option Z) :=
  match v with
  | JNull => Some None
  | JInt z => checked int_range (Some z)
  | _ => checked int_range (to_int cv v)
  end.

Definition bind_varchar (cv : conversions) (n : nat) (v : json)
  : option (option string) :=
  match v with
  | JNull => Some None
  | JStr s => store_varchar n s
  | _ =>
      match to_varchar cv v with
      | Some s => store_varchar n s
      | None => None
      end
  end.

Definition bind_date (cv : conversions) (v : json) : option (option date) :=
  match v with
  | JNull => Some None
  | JStr s =>
      match iso_date s with
      | Some d => checked valid_date (Some d)
      | None => checked valid_date (to_date cv v)
      end
  | _ => checked valid_date (to_date cv v)
  end.

Definition bind_time (cv : conversions) (v : json) : option (option time) :=
  match v with
  | JNull => Some None
  | JStr s =>
      match iso_time s with
      | Some t => checked valid_time (Some t)
      | None => checked valid_time (to_time cv v)
      end
  | _ => checked valid_time (to_time cv v)
  end.

(** *** Tables with an [IDENTITY(1,1) PRIMARY KEY] column *)

Record table (R : Type) : Type := mkTable {
  rows : list R;          (* in the order SELECT returns them *)
  next_id : Z             (* the identity value the next INSERT gets *)
}.
Arguments mkTable {R} _ _.
Arguments rows {R} _.
Arguments next_id {R} _.

(** A table just created: no row, identity seed 1. *)
Definition empty_table {R} : table R := mkTable [] 1.

(** The outcome of an INSERT. *)
Inductive inserted : Type :=
| Inserted (i : Z)     (* the row is in, with this identity value *)
| Overflow             (* the identity value does not fit INT *)
| Duplicate.           (* the primary key has this value already *)

(** INSERT of a row whose other columns are given by [mk].  The identity
    column is an [INT]: once the next value is beyond its range the INSERT
    ends in an arithmetic overflow and the table stays as it is.  Otherwise
    the identity value is taken, and the primary key refuses a value that a
    row already has. *)
Definition insert {R} (key : R -> Z) (mk : Z -> R) (t : table R)
  : table R * inserted :=
  let i := next_id t in
  if negb (int_range i) then (t, Overflow)
  else if existsb (fun r => key r =? i) (rows t)
  then (mkTable (rows t) (i + 1), Duplicate)
  else (mkTable (rows t ++ [mk i]) (i + 1), Inserted i).

Definition cell_of_decimal (o : option Z) : cell :=
  match o with Some z => CDecimal z | None => CNull end.

Definition cell_of_int (o : option Z) : cell :=
  match o with Some z => CInt z | None => CNull end.

Definition cell_of_text (o : option string) : cell :=
  match o with Some s => CText s | None => CNull end.

End Sql.
Import Sql.

(** ** The two tables, the world and the monad of the view functions *)

Module Db.

(** [CREATE TABLE patients (id INT IDENTITY(1,1) PRIMARY KEY,
    name VARCHAR(255), age INT)]: no column but the key is NOT NULL. *)
Record patient_row : Type := mkPatient {
  p_id : Z;
  p_name : option string;
  p_age : option Z }.

(** [CREATE TABLE appointments (id INT IDENTITY(1,1) PRIMARY KEY,
    patient_id INT, doctor VARCHAR(255), date DATE, time TIME)]:
    [patient_id] carries no REFERENCES clause. *)
Record appointment_row : Type := mkAppointment {
  a_id : Z;
  a_patient_id : option Z;
  a_doctor : option string;
  a_date : option date;
  a_time : option time }.

(** The statements the two services send, by their SQL text. *)
Inductive statement : Type :=
| CreatePatients      (* IF NOT EXISTS (...) CREATE TABLE patients (...) *)
| SelectPatients      (* SELECT * FROM patients *)
| InsertPatient       (* INSERT INTO patients (name, age) VALUES (?, ?) *)
| CreateAppointments  (* IF NOT EXISTS (...) CREATE TABLE appointments (...) *)
| SelectAppointments  (* SELECT id, patient_id, doctor, CONVERT(..120), CONVERT(..108) FROM appointments *)
| InsertAppointment   (* INSERT INTO appointments (patient_id, doctor, date, time) VALUES (?, ?, ?, ?) *)
| SelectIdentity.     (* SELECT @@IDENTITY *)

(** What a view does to the driver and to Flask, in order. *)
Inductive event : Type :=
| EvConnect                    (* pyodbc.connect returned a connection *)
| EvRefused                    (* pyodbc.connect raised *)
| EvExecute (s : statement)    (* cursor.execute *)
| EvCommit                     (* conn.commit() *)
| EvExit                       (* the with block of the connection is left *)
| EvJsonify.                   (* jsonify builds the response *)

Record world : Type := mkWorld {
  up : bool;                                       (* can a connection be established *)
  patients : option (table patient_row);           (* None: the table does not exist *)
  appointments : option (table appointment_row);
  identity : option Z;                             (* @@IDENTITY of the session *)
  cursor : list (list cell);                       (* rows not fetched yet *)
  trace : list event }.

Definition log (e : event) (w : world) : world :=
  mkWorld (up w) (patients w) (appointments w) (identity w) (cursor w)
          (trace w ++ [e]).

Definition set_cursor (c : list (list cell)) (w : world) : world :=
  mkWorld (up w) (patients w) (appointments w) (identity w) c (trace w).

Definition set_identity (i : option Z) (w : world) : world :=
  mkWorld (up w) (patients w) (appointments w) i (cursor w) (trace w).

Definition set_patients (t : table patient_row) (w : world) : world :=
  mkWorld (up w) (Some t) (appointments w) (identity w) (cursor w) (trace w).

Definition set_appointments (t : table appointment_row) (w : world) : world :=
  mkWorld (up w) (patients w) (Some t) (identity w) (cursor w) (trace w).

(** Python exceptions the views can meet. *)
Inductive exn : Type :=
| AttributeError      (* .get on a value that is not a dict *)
| IndexError          (* row[i] past the end *)
| TypeError           (* None[0] *)
| OperationalError    (* the connection cannot be established *)
| ProgrammingError    (* unknown table, wrong number of parameters *)
| DataError           (* a value the column refuses, an identity overflow *)
| IntegrityError.     (* primary key violation *)

Inductive result (A : Type) : Type :=
| Val (a : A)
| Raise (e : exn).
Arguments Val {A} _.
Arguments Raise {A} _.

Definition M (A : Type) : Type := world -> result A * world.

Definition ret {A} (a : A) : M A := fun w => (Val a, w).

Definition raise {A} (e : exn) : M A := fun w => (Raise e, w).

Definition bind {A B} (m : M A) (k : A -> M B) : M B :=
  fun w =>
    match m w with
    | (Val a, w') => k a w'
    | (Raise e, w') => (Raise e, w')
    end.

Definition lift {A} (r : result A) : M A := fun w => (r, w).

Definition emit (e : event) : M unit := fun w => (Val tt, log e w).

(** The same sequencing for code that touches no state. *)
Definition rbind {A B} (r : result A) (k : A -> result B) : result B :=
  match r with
  | Val a => k a
  | Raise e => Raise e
  end.

(** [l[i]] *)
Definition index {A} (l : list A) (i : nat) : result A :=
  match nth_error l i with
  | Some a => Val a
  | None => Raise IndexError
  end.

(** [[f(x) for x in l]] *)
Fixpoint comprehension {A B} (f : A -> result B) (l : list A)
  : result (list B) :=
  match l with
  | [] => Val []
  | x :: rest =>
      rbind (f x) (fun y =>
      rbind (comprehension f rest) (fun ys => Val (y :: ys)))
  end.

(** What [jsonify] writes for the Python value of a cell: [null], a
    number, a string, and for a [Decimal] the string of its numeral. *)
Definition value_of (c : cell) : json :=
  match c with
  | CNull => JNull
  | CInt z => JInt z
  | CText s => JStr s
  | CDecimal z => JStr (decimal_string z)
  end.

(** [data.get(k)] *)
Definition get (data : json) (k : string) : M json :=
  match data with
  | JObj fields =>
      ret (match lookup k fields with Some v => v | None => JNull end)
  | _ => raise AttributeError
  end.

(** *** The driver *)

(** [pyodbc.connect(conn_str)]: a new session, whose [@@IDENTITY] is
    NULL. *)
Definition get_db_connection : M unit :=
  fun w =>
    if up w
    then (Val tt, set_identity None (set_cursor [] (log EvConnect w)))
    else (Raise OperationalError, log EvRefused w).

(** [with get_db_connection() as conn: body].  When the connection is
    obtained the block is left exactly once, whether [body] returns or
    raises, and an exception of [body] goes on to the caller. *)
Definition with_connection {A} (body : M A) : M A :=
  fun w =>
    match get_db_connection w with
    | (Raise e, w1) => (Raise e, w1)
    | (Val _, w1) =>
        let (r, w2) := body w1 in (r, log EvExit w2)
    end.

Definition commit : M unit := emit EvCommit.

Definition patient_cells (r : patient_row) : list cell :=
  [CInt (p_id r); cell_of_text (p_name r); cell_of_int (p_age r)].

Definition appointment_cells (r : appointment_row) : list cell :=
  [CInt (a_id r);
   cell_of_int (a_patient_id r);
   cell_of_text (a_doctor r);
   cell_of_text (option_map convert_date_120 (a_date r));
   cell_of_text (option_map convert_time_108 (a_time r))].

(** What the server does with a statement and its parameters.  The one
    statement of a view that writes is followed at once by [conn.commit()]:
    the INSERT changes the table when it is executed, and the commit is kept
    as an event.  [SELECT @@IDENTITY] gives one row with one column, the
    last identity value of the session; its type is numeric(38,0), which
    the driver hands out as a [Decimal]. *)
Definition run_statement (cv : conversions) (s : statement)
           (params : list json) : M unit :=
  fun w =>
    match s, params with
    | CreatePatients, [] =>
        match patients w with
        | Some _ => (Val tt, set_cursor [] w)
        | None => (Val tt, set_cursor [] (set_patients empty_table w))
        end
    | CreateAppointments, [] =>
        match appointments w with
        | Some _ => (Val tt, set_cursor [] w)
        | None => (Val tt, set_cursor [] (set_appointments empty_table w))
        end
    | SelectPatients, [] =>
        match patients w with
        | Some t => (Val tt, set_cursor (map patient_cells (rows t)) w)
        | None => (Raise ProgrammingError, w)
        end
    | SelectAppointments, [] =>
        match appointments w with
        | Some t => (Val tt, set_cursor (map appointment_cells (rows t)) w)
        | None => (Raise ProgrammingError, w)
        end
    | InsertPatient, [name; age] =>
        match patients w with
        | None => (Raise ProgrammingError, w)
        | Some t =>
            match bind_varchar cv 255 name, bind_int cv age with
            | Some n, Some a =>
                match insert p_id (fun i => mkPatient i n a) t with
                | (t', Inserted i) =>
                    (Val tt,
                     set_cursor [] (set_identity (Some i) (set_patients t' w)))
                | (t', Overflow) => (Raise DataError, set_patients t' w)
                | (t', Duplicate) => (Raise IntegrityError, set_patients t' w)
                end
            | _, _ => (Raise DataError, w)
            end
        end
    | InsertAppointment, [patient_id; doctor; date; time] =>
        match appointments w with
        | None => (Raise ProgrammingError, w)
        | Some t =>
            match bind_int cv patient_id, bind_varchar cv 255 doctor,
                  bind_date cv date, bind_time cv time with
            | Some p, Some d, Some dt, Some tm =>
                match insert a_id (fun i => mkAppointment i p d dt tm) t with
                | (t', Inserted i) =>
                    (Val tt,
                     set_cursor []
                       (set_identity (Some i) (set_appointments t' w)))
                | (t', Overflow) => (Raise DataError, set_appointments t' w)
                | (t', Duplicate) =>
                    (Raise IntegrityError, set_appointments t' w)
                end
            | _, _, _, _ => (Raise DataError, w)
            end
        end
    | SelectIdentity, [] =>
        (Val tt, set_cursor [[cell_of_decimal (identity w)]] w)
    | _, _ => (Raise ProgrammingError, w)
    end.

(** [cursor.execute(sql, params)] *)
Definition execute (cv : conversions) (s : statement) (params : list json)
  : M unit :=
  bind (emit (EvExecute s)) (fun _ => run_statement cv s params).

(** [cursor.fetchall()] *)
Definition fetchall : M (list (list cell)) :=
  fun w => (Val (cursor w), set_cursor [] w).

(** [cursor.fetchone()] *)
Definition fetchone : M (option (list cell)) :=
  fun w =>
    match cursor w with
    | [] => (Val None, w)
    | r :: rest => (Val (Some r), set_cursor rest w)
    end.

(** [row[i]] on what [fetchone] returned. *)
Definition subscript (row : option (list cell)) (i : nat) : M cell :=
  match row with
  | Some r => lift (index r i)
  | None => raise TypeError
  end.

(** *** Flask *)

(** The methods of the requests considered; Flask answers HEAD and OPTIONS
    on its own account. *)
Inductive http_method : Type := GET | POST | PUT | DELETE.

(** A request whose body the framework has parsed: [json_body] is what
    [request.json] returns to the view.  A request on which [request.json]
    itself fails (no JSON content type, a body that does not parse) gets
    the framework's own 4xx answer and is no value of this type. *)
Record request : Type := mkRequest {
  method : http_method;
  path : string;
  json_body : json }.          (* request.json *)

Inductive response : Type :=
| Json (status : Z) (body : json)   (* a response built by jsonify *)
| Failure (status : Z).             (* an error page of the framework *)

Definition status_of (r : response) : Z :=
  match r with
  | Json s _ => s
  | Failure s => s
  end.

(** [jsonify(v)], to which Flask gives status 200, as does the pair
    [(jsonify(v), 200)]. *)
Definition jsonify (v : json) : M response :=
  bind (emit EvJsonify) (fun _ => ret (Json 200 v)).

(** A view function called by Flask: an exception that escapes it becomes
    a 500 response. *)
Definition handle (view : M response) (w : world) : response * world :=
  match view w with
  | (Val r, w') => (r, w')
  | (Raise _, w') => (Failure 500, w')
  end.

(** Every id of the table lies below the next identity value. *)
Definition identity_ok {R} (key : R -> Z) (t : table R) : bool :=
  forallb (fun r => key r <? next_id t) (rows t).

End Db.
Import Db.

Declare Scope view_scope.
Delimit Scope view_scope with view.
Notation "x <- m ;; k" := (bind m (fun x => k))
  (at level 100, m at next level, right associativity) : view_scope.
Notation "m ;; k" := (bind m (fun _ => k))
  (at level 100, right associativity) : view_scope.
Notation "x <~ r ;; k" := (rbind r (fun x => k))
  (at level 100, r at next level, right associativity) : view_scope.
Local Open Scope view_scope.

(** ** patient-api/app.py *)

Module PatientApi.

(** The module-level block that creates the table at start. *)
Definition startup (cv : conversions) : M unit :=
  with_connection (
    execute cv CreatePatients [] ;;
    commit).

Definition get_patients (cv : conversions) : M response :=
  result <- with_connection (
    execute cv SelectPatients [] ;;
    patients <- fetchall ;;
    lift (comprehension
            (fun row =>
               id <~ index row 0 ;;
               name <~ index row 1 ;;
               age <~ index row 2 ;;
               Val (JObj [("id", value_of id);
                          ("name", value_of name);
                          ("age", value_of age)]))
            patients)) ;;
  jsonify (JArr result).

Definition add_patient (cv : conversions) (req : request) : M response :=
  let data := json_body req in
  name <- get data "name" ;;
  age <- get data "age" ;;
  patient_id <- with_connection (
    execute cv InsertPatient [name; age] ;;
    commit ;;
    execute cv SelectIdentity [] ;;
    row <- fetchone ;;
    subscript row 0) ;;
  jsonify (JObj [("id", value_of patient_id); ("name", name); ("age", age)]).

(** The routes registered on [app]: [/patients] for GET and for POST, and
    nothing else. *)
Definition serve (cv : conversions) (req : request) (w : world)
  : response * world :=
  if String.eqb (path req) "/patients" then
    match method req with
    | GET => handle (get_patients cv) w
    | POST => handle (add_patient cv req) w
    | _ => (Failure 405, w)
    end
  else (Failure 404, w).

End PatientApi.

(** ** appointment-api/app.py *)

Module AppointmentApi.

Definition startup (cv : conversions) : M unit :=
  with_connection (
    execute cv CreateAppointments [] ;;
    commit).

Definition get_appointments (cv : conversions) : M response :=
  result <- with_connection (
    execute cv SelectAppointments [] ;;
    appointments <- fetchall ;;
    lift (comprehension
            (fun row =>
               id <~ index row 0 ;;
               patient_id <~ index row 1 ;;
               doctor <~ index row 2 ;;
               date <~ index row 3 ;;
               time <~ index row 4 ;;
               Val (JObj [("id", value_of id);
                          ("patient_id", value_of patient_id);
                          ("doctor", value_of doctor);
                          ("date", value_of date);
                          ("time", value_of time)]))
            appointments)) ;;
  jsonify (JArr result).

Definition health : M response :=
  jsonify (JObj [("status", JStr "healthy")]).

Definition add_appointment (cv : conversions) (req : request) : M response :=
  let data := json_body req in
  patient_id <- get data "patient_id" ;;
  doctor <- get data "doctor" ;;
  date <- get data "date" ;;
  time <- get data "time" ;;
  appointment_id <- with_connection (
    execute cv InsertAppointment [patient_id; doctor; date; time] ;;
    commit ;;
    execute cv SelectIdentity [] ;;
    row <- fetchone ;;
    subscript row 0) ;;
  jsonify (JObj [("id", value_of appointment_id);
                 ("patient_id", patient_id);
                 ("doctor", doctor);
                 ("date", date);
                 ("time", time)]).

(** The routes registered on [app]. *)
Definition serve (cv : conversions) (req : request) (w : world)
  : response * world :=
  if String.eqb (path req) "/appointments" then
    match method req with
    | GET => handle (get_appointments cv) w
    | POST => handle (add_appointment cv req) w
    | _ => (Failure 405, w)
    end
  else if String.eqb (path req) "/health" then
    match method req with
    | GET => handle health w
    | _ => (Failure 405, w)
    end
  else (Failure 404, w).

End AppointmentApi.

(** ** Vocabulary of the contract *)

Module Contract.

(** [^\d{4}-\d{2}-\d{2}$] *)
Definition matches_date (s : string) : bool :=
  match list_ascii_of_string s with
  | [y1; y2; y3; y4; s1; m1; m2; s2; d1; d2] =>
      is_digit y1 && is_digit y2 && is_digit y3 && is_digit y4 &&
      Ascii.eqb s1 "-" && is_digit m1 && is_digit m2 &&
      Ascii.eqb s2 "-" && is_digit d1 && is_digit d2
  | _ => false
  end.

(** [^\d{2}:\d{2}$] *)
Definition matches_time (s : string) : bool :=
  match list_ascii_of_string s with
  | [h1; h2; s1; m1; m2] =>
      is_digit h1 && is_digit h2 && Ascii.eqb s1 ":" &&
      is_digit m1 && is_digit m2
  | _ => false
  end.

Definition is_date_string (v : json) : bool :=
  match v with JStr s => matches_date s | _ => false end.

Definition is_time_string (v : json) : bool :=
  match v with JStr s => matches_time s | _ => false end.

(** The member [k] of an object, [JNull] when there is none. *)
Definition field (k : string) (v : json) : json :=
  match v with
  | JObj fields => match lookup k fields with Some x => x | None => JNull end
  | _ => JNull
  end.

Definition json_of_int (o : option Z) : json :=
  match o with Some z => JInt z | None => JNull end.

Definition json_of_text (o : option string) : json :=
  match o with Some s => JStr s | None => JNull end.

(** A Patient record as the service lists it. *)
Definition patient_json (r : patient_row) : json :=
  JObj [("id", JInt (p_id r));
        ("name", json_of_text (p_name r));
        ("age", json_of_int (p_age r))].

(** An Appointment record as the service lists it. *)
Definition appointment_json (r : appointment_row) : json :=
  JObj [("id", JInt (a_id r));
        ("patient_id", json_of_int (a_patient_id r));
        ("doctor", json_of_text (a_doctor r));
        ("date", json_of_text (option_map convert_date_120 (a_date r)));
        ("time", json_of_text (option_map convert_time_108 (a_time r)))].

(** The events a run from [w] to [w'] added to the trace. *)
Definition new_events (w w' : world) : list event :=
  skipn (List.length (trace w)) (trace w').

(** Scoped use of connections in a run: every connection obtained is
    followed by the exit of its block, statements and commits happen only
    inside a block, the response is built outside any block, and no block
    is open at the end. *)
Fixpoint scoped_from (open : nat) (tr : list event) : bool :=
  match tr with
  | [] => Nat.eqb open 0
  | EvConnect :: rest => scoped_from (S open) rest
  | EvRefused :: rest => scoped_from open rest
  | EvExit :: rest =>
      match open with S n => scoped_from n rest | O => false end
  | EvExecute _ :: rest | EvCommit :: rest =>
      match open with S _ => scoped_from open rest | O => false end
  | EvJsonify :: rest =>
      match open with O => scoped_from open rest | S _ => false end
  end.

Definition scoped (tr : list event) : bool := scoped_from 0 tr.

(** The first thing a run did. *)
Definition first_event (tr : list event) : option event := hd_error tr.

Definition connects (tr : list event) : bool :=
  existsb (fun e => match e with EvConnect => true | _ => false end) tr.

(** No call to the driver at all. *)
Definition no_database_access (tr : list event) : bool :=
  forallb (fun e => match e with EvJsonify => true | _ => false end) tr.


Definition body_of (r : response) : json :=
  match r with
  | Json _ b => b
  | Failure _ => JNull
  end.

(** The world [w] with another patients table, or none. *)
Definition with_patients (p : option (table patient_row)) (w : world)
  : world :=
  mkWorld (up w) p (appointments w) (identity w) (cursor w) (trace w).

(** A world whose database cannot be reached. *)
Definition unreachable (w : world) : world :=
  mkWorld false (patients w) (appointments w) (identity w) (cursor w)
          (trace w).

(** The world [w] with the database reachable or not. *)
Definition set_up (b : bool) (w : world) : world :=
  mkWorld b (patients w) (appointments w) (identity w) (cursor w) (trace w).

(** The invariant of the two identity columns. *)
Definition tables_ok (w : world) : Prop :=
  match patients w with
  | Some t => identity_ok p_id t = true
  | None => True
  end /\
  match appointments w with
  | Some t => identity_ok a_id t = true
  | None => True
  end.

(** What can happen to the world: a service starts, a request is served,
    the database becomes reachable or unreachable. *)
Inductive step (cv : conversions) : world -> world -> Prop :=
| step_patient_startup (w : world) :
    step cv w (snd (PatientApi.startup cv w))
| step_appointment_startup (w : world) :
    step cv w (snd (AppointmentApi.startup cv w))
| step_patient_request (req : request) (w : world) :
    step cv w (snd (PatientApi.serve cv req w))
| step_appointment_request (req : request) (w : world) :
    step cv w (snd (AppointmentApi.serve cv req w))
| step_outage (b : bool) (w : world) :
    step cv w (set_up b w).

(** The worlds reached from a database that has neither table yet. *)
Inductive reachable (cv : conversions) : world -> Prop :=
| reachable_initial (u : bool) (tr : list event) :
    reachable cv (mkWorld u None None None [] tr)
| reachable_step (w w' : world) :
    reachable cv w -> step cv w w' -> reachable cv w'.

(** Worlds and requests of the scenarios of the specification. *)
Definition fresh_world : world :=
  mkWorld true (Some empty_table) (Some empty_table) None [] [].

Definition jane_doe : request :=
  mkRequest POST "/patients"
    (JObj [("name", JStr "Jane Doe"); ("age", JInt 34)]).

Definition dr_smith : request :=
  mkRequest POST "/appointments"
    (JObj [("patient_id", JInt 1); ("doctor", JStr "Dr. Smith");
           ("date", JStr "2024-03-15"); ("time", JStr "14:30")]).

(** The same appointment with the time written with its seconds. *)
Definition dr_smith_seconds : request :=
  mkRequest POST "/appointments"
    (JObj [("patient_id", JInt 1); ("doctor", JStr "Dr. Smith");
           ("date", JStr "2024-03-15"); ("time", JStr "14:30:00")]).


Definition empty_object (m : http_method) (p : string) : request :=
  mkRequest m p (JObj []).

(** A patient whose age does not fit the [INT] column. *)
Definition age_out_of_range : request :=
  mkRequest POST "/patients"
    (JObj [("name", JStr "Jane Doe"); ("age", JInt 2147483648)]).

(** The field [k] of the request is absent, or has a value that the
    column, bound by [bind], takes. *)
Definition absent_or_accepted {A} (bind : json -> option (option A))
           (k : string) (fields : list (string * json)) : Prop :=
  forall v, lookup k fields = Some v -> bind v <> None.

End Contract.
Import Contract.

(** ** Vocabulary of the further properties *)

Module Observations.

(** The rows of a table that may be missing. *)
Definition rows_of {R} (o : option (table R)) : list R :=
  match o with
  | Some t => rows t
  | None => []
  end.

(** A run that only reads: no statement but a SELECT, and no commit. *)
Definition reads_only (tr : list event) : bool :=
  forallb (fun e =>
             match e with
             | EvExecute SelectPatients => true
             | EvExecute SelectAppointments => true
             | EvExecute _ => false
             | EvCommit => false
             | _ => true
             end) tr.

(** Strictly increasing. *)
Fixpoint ascending (l : list Z) : bool :=
  match l with
  | [] => true
  | x :: rest => forallb (fun y => x <? y) rest && ascending rest
  end.

(** Both tables list their rows by strictly increasing id. *)
Definition ids_ascending (w : world) : Prop :=
  ascending (map p_id (rows_of (patients w))) = true /\
  ascending (map a_id (rows_of (appointments w))) = true.

Definition is_object (v : json) : bool :=
  match v with
  | JObj _ => true
  | _ => false
  end.

(** The first [n] characters of a string. *)
Definition prefix (n : nat) (s : string) : string :=
  string_of_list_ascii (firstn n (list_ascii_of_string s)).

(** The string has a character other than a blank past its first [n]. *)
Definition overlong (n : nat) (s : string) : bool :=
  negb (forallb is_blank (skipn n (list_ascii_of_string s))).

(** A name of 256 letters, and a name of 255 letters and a blank. *)
Definition letters (n : nat) : string := string_of_list_ascii (repeat "a"%char n).

Definition padded_name : string :=
  string_of_list_ascii (repeat "a"%char 255 ++ [" "%char]).

(** The exceptions a list view can end in, and those a create view can. *)
Definition list_exception (e : exn) : bool :=
  match e with
  | OperationalError | ProgrammingError => true
  | _ => false
  end.

Definition create_exception (e : exn) : bool :=
  match e with
  | AttributeError | OperationalError | ProgrammingError
  | DataError | IntegrityError => true
  | _ => false
  end.

Definition raised {A} (r : result A) : option exn :=
  match r with
  | Val _ => None
  | Raise e => Some e
  end.

(** The number of calls of [conn.commit()] in a run. *)
Definition commits (tr : list event) : nat :=
  List.length
    (filter (fun e => match e with EvCommit => true | _ => false end) tr).

(** A database server on which neither table exists yet. *)
Definition no_tables (u : bool) : world := mkWorld u None None None [] [].

Definition list_patients : request := mkRequest GET "/patients" JNull.

Definition list_appointments : request := mkRequest GET "/appointments" JNull.

End Observations.
Import Observations.

(** ** pulumi/__main__.py: the configuration block *)

Module Infrastructure.

(** A configuration namespace: [Config()] and [Config("gcp")]. *)
Definition config : Type := string -> option string.

Inductive config_error : Type :=
| ConfigMissingError (key : string)    (* require on a key that is not set *)
| ConfigTypeError (key : string).      (* get_int on a value that is no integer *)

(** [v or d] on an optional string: [None] and the empty string are false. *)
Definition or_default (v : option string) (d : string) : string :=
  match v with
  | Some s => if String.eqb s "" then d else s
  | None => d
  end.

(** [v or d] on an optional integer: [None] and [0] are false. *)
Definition or_default_int (v : option Z) (d : Z) : Z :=
  match v with
  | Some n => if n =? 0 then d else n
  | None => d
  end.

(** [config.get_int(key)]: [None] when the key is not set, the integer the
    value denotes otherwise, an error when it denotes none.  [int] is
    Python's reading of an integer. *)
Definition get_int (int : string -> option Z) (c : config) (key : string)
  : config_error + option Z :=
  match c key with
  | None => inr None
  | Some v =>
      match int v with
      | Some n => inr (Some n)
      | None => inl (ConfigTypeError key)
      end
  end.

Record settings : Type := mkSettings {
  project_id : string;
  region : string;
  zone : string;
  cluster_name : string;
  node_count : Z;
  machine_type : string }.

(** The six assignments at the head of the program, in their order. *)
Definition load (int : string -> option Z) (cfg gcp_config : config)
  : config_error + settings :=
  match gcp_config "project" with
  | None => inl (ConfigMissingError "project")
  | Some project =>
      let region := or_default (gcp_config "region") "us-central1" in
      let zone := or_default (gcp_config "zone") "us-central1-a" in
      let cluster_name := or_default (cfg "cluster-name") "hospital-gke" in
      match get_int int cfg "node-count" with
      | inl e => inl e
      | inr n =>
          let node_count := or_default_int n 3 in
          let machine_type :=
            or_default (cfg "machine-type") "e2-standard-2" in
          inr (mkSettings project region zone cluster_name node_count
                          machine_type)
      end
  end.

(** A configuration that sets the project and a node count of zero. *)
Definition zero_nodes (key : string) : option string :=
  if String.eqb key "node-count" then Some "0" else None.

Definition only_project (key : string) : option string :=
  if String.eqb key "project" then Some "hospital-dev" else None.

(** A reader of the decimal numerals without sign. *)
Definition decimal (s : string) : option Z :=
  fold_left (fun acc c =>
               match acc, digit_value c with
               | Some n, Some d => Some (10 * n + d)
               | _, _ => None
               end)
            (list_ascii_of_string s)
            (if String.eqb s "" then None else Some 0).

End Infrastructure.

(** ** Properties *)

(** *** The monad and the driver *)

(** Runs the monadic operations of a view on a world given by its fields. *)
Ltac run_view :=
  cbv beta iota zeta delta
    [bind ret raise lift emit rbind get_db_connection with_connection commit
     execute run_statement fetchall fetchone subscript jsonify handle
     log set_cursor set_identity set_patients set_appointments
     up patients appointments identity cursor trace
     json_body method path].

Lemma comprehension_map {A B C} (f : B -> result C) (h : A -> B) (g : A -> C)
      (l : list A) :
  (forall x, f (h x) = Val (g x)) ->
  comprehension f (map h l) = Val (map g l).
Proof.
  intros Hf. induction l as [|x l IH]; simpl.
  - reflexivity.
  - rewrite Hf, IH. reflexivity.
Qed.

Lemma value_of_int (o : option Z) : value_of (cell_of_int o) = json_of_int o.
Proof. destruct o; reflexivity. Qed.

Lemma value_of_text (o : option string) :
  value_of (cell_of_text o) = json_of_text o.
Proof. destruct o; reflexivity. Qed.

Lemma new_events_app (w w' : world) (l : list event) :
  trace w' = trace w ++ l -> new_events w w' = l.
Proof.
  unfold new_events. intros ->.
  rewrite skipn_app, skipn_all, Nat.sub_diag. reflexivity.
Qed.

(** An INSERT into a table whose ids lie below the identity value meets no
    primary-key violation. *)
Lemma identity_ok_fresh {R} (key : R -> Z) (t : table R) :
  identity_ok key t = true ->
  existsb (fun r => key r =? next_id t) (rows t) = false.
Proof.
  unfold identity_ok. generalize (next_id t). intros n.
  induction (rows t) as [|r l IH]; simpl; intros H.
  - reflexivity.
  - apply andb_true_iff in H. destruct H as [H1 H2].
    rewrite (IH H2), orb_false_r.
    apply Z.ltb_lt in H1. apply Z.eqb_neq. lia.
Qed.

Lemma identity_ok_lt {R} (key : R -> Z) (t : table R) (r : R) :
  identity_ok key t = true -> In r (rows t) -> key r < next_id t.
Proof.
  unfold identity_ok. intros H Hin.
  rewrite forallb_forall in H. apply Z.ltb_lt. apply H. exact Hin.
Qed.

(** An INSERT into a table that keeps the invariant either overflows the
    identity column or puts the row at the end of the table. *)
Lemma insert_under_invariant {R} (key : R -> Z) (mk : Z -> R) (t : table R) :
  identity_ok key t = true ->
  insert key mk t =
    if int_range (next_id t)
    then (mkTable (rows t ++ [mk (next_id t)]) (next_id t + 1),
          Inserted (next_id t))
    else (t, Overflow).
Proof.
  intros H. unfold insert. rewrite (identity_ok_fresh key t H).
  destruct (int_range (next_id t)); reflexivity.
Qed.

Lemma insert_ok {R} (key : R -> Z) (mk : Z -> R) (t : table R) :
  identity_ok key t = true ->
  int_range (next_id t) = true ->
  insert key mk t =
    (mkTable (rows t ++ [mk (next_id t)]) (next_id t + 1),
     Inserted (next_id t)).
Proof.
  intros H Hr. rewrite (insert_under_invariant key mk t H), Hr. reflexivity.
Qed.

Lemma identity_ok_after_insert {R} (key : R -> Z) (mk : Z -> R) (t : table R) :
  (forall i, key (mk i) = i) ->
  identity_ok key t = true ->
  identity_ok key (mkTable (rows t ++ [mk (next_id t)]) (next_id t + 1)) = true.
Proof.
  intros Hk H. unfold identity_ok. simpl.
  rewrite forallb_app. simpl. rewrite Hk.
  apply andb_true_iff. split.
  - rewrite forallb_forall. intros r Hr. apply Z.ltb_lt.
    pose proof (identity_ok_lt key t r H Hr). lia.
  - rewrite andb_true_r. apply Z.ltb_lt. lia.
Qed.

(** The invariant is kept by INSERT, so it holds of every table the
    services have built from the table their start-up creates. *)
Lemma insert_keeps_identity_ok {R} (key : R -> Z) (mk : Z -> R) (t : table R) :
  (forall i, key (mk i) = i) ->
  identity_ok key t = true ->
  identity_ok key (fst (insert key mk t)) = true.
Proof.
  intros Hk H. rewrite (insert_under_invariant key mk t H).
  destruct (int_range (next_id t)); simpl.
  - apply identity_ok_after_insert; assumption.
  - exact H.
Qed.



Lemma empty_table_identity_ok {R} (key : R -> Z) :
  identity_ok key (@empty_table R) = true.
Proof. reflexivity. Qed.

(** *** Listing *)

Lemma get_patients_run (cv : conversions) (w : world) (t : table patient_row) :
  up w = true -> patients w = Some t ->
  PatientApi.get_patients cv w =
    (Val (Json 200 (JArr (map patient_json (rows t)))),
     mkWorld true (Some t) (appointments w) None []
       (trace w ++ [EvConnect; EvExecute SelectPatients; EvExit; EvJsonify])).
Proof.
  destruct w as [u p a i c tr]. simpl. intros -> ->.
  unfold PatientApi.get_patients, bind, with_connection, get_db_connection,
    execute, emit, fetchall, lift, jsonify, ret. simpl.
  rewrite (comprehension_map _ patient_cells patient_json).
  - unfold bind, emit, log. simpl. rewrite <- !app_assoc. reflexivity.
  - intros r. simpl. rewrite value_of_int, value_of_text. reflexivity.
Qed.

Lemma get_appointments_run (cv : conversions) (w : world)
      (t : table appointment_row) :
  up w = true -> appointments w = Some t ->
  AppointmentApi.get_appointments cv w =
    (Val (Json 200 (JArr (map appointment_json (rows t)))),
     mkWorld true (patients w) (Some t) None []
       (trace w ++ [EvConnect; EvExecute SelectAppointments; EvExit; EvJsonify])).
Proof.
  destruct w as [u p a i c tr]. simpl. intros -> ->.
  unfold AppointmentApi.get_appointments, bind, with_connection,
    get_db_connection, execute, emit, fetchall, lift, jsonify, ret. simpl.
  rewrite (comprehension_map _ appointment_cells appointment_json).
  - unfold bind, emit, log. simpl. rewrite <- !app_assoc. reflexivity.
  - intros r. simpl. rewrite !value_of_int, !value_of_text. reflexivity.
Qed.

(** *** Creation *)

Lemma get_object (fields : list (string * json)) (k : string) :
  get (JObj fields) k = ret (field k (JObj fields)).
Proof. reflexivity. Qed.

Lemma add_patient_run (cv : conversions) (w : world) (t : table patient_row)
      (req : request) (fields : list (string * json))
      (n : option string) (a : option Z) :
  json_body req = JObj fields ->
  up w = true -> patients w = Some t -> identity_ok p_id t = true ->
  int_range (next_id t) = true ->
  bind_varchar cv 255 (field "name" (json_body req)) = Some n ->
  bind_int cv (field "age" (json_body req)) = Some a ->
  PatientApi.add_patient cv req w =
    (Val (Json 200 (JObj [("id", JStr (decimal_string (next_id t)));
                          ("name", field "name" (json_body req));
                          ("age", field "age" (json_body req))])),
     mkWorld true
       (Some (mkTable (rows t ++ [mkPatient (next_id t) n a]) (next_id t + 1)))
       (appointments w) (Some (next_id t)) []
       (trace w ++ [EvConnect; EvExecute InsertPatient; EvCommit;
                    EvExecute SelectIdentity; EvExit; EvJsonify])).
Proof.
  destruct w as [u p ap i c tr], req as [m pa body]. simpl.
  intros -> -> -> Hok Hr Hn Ha.
  unfold PatientApi.add_patient. simpl json_body. rewrite !get_object.
  revert Hn Ha.
  generalize (field "name" (JObj fields)) (field "age" (JObj fields)).
  intros name age Hn Ha.
  run_view. rewrite Hn, Ha, (insert_ok p_id _ t Hok Hr).
  run_view. simpl. rewrite <- !app_assoc. reflexivity.
Qed.

Lemma add_appointment_run (cv : conversions) (w : world)
      (t : table appointment_row) (req : request)
      (fields : list (string * json))
      (p : option Z) (d : option string) (dt : option date) (tm : option time) :
  json_body req = JObj fields ->
  up w = true -> appointments w = Some t -> identity_ok a_id t = true ->
  int_range (next_id t) = true ->
  bind_int cv (field "patient_id" (json_body req)) = Some p ->
  bind_varchar cv 255 (field "doctor" (json_body req)) = Some d ->
  bind_date cv (field "date" (json_body req)) = Some dt ->
  bind_time cv (field "time" (json_body req)) = Some tm ->
  AppointmentApi.add_appointment cv req w =
    (Val (Json 200 (JObj [("id", JStr (decimal_string (next_id t)));
                          ("patient_id", field "patient_id" (json_body req));
                          ("doctor", field "doctor" (json_body req));
                          ("date", field "date" (json_body req));
                          ("time", field "time" (json_body req))])),
     mkWorld true (patients w)
       (Some (mkTable (rows t ++ [mkAppointment (next_id t) p d dt tm])
                      (next_id t + 1)))
       (Some (next_id t)) []
       (trace w ++ [EvConnect; EvExecute InsertAppointment; EvCommit;
                    EvExecute SelectIdentity; EvExit; EvJsonify])).
Proof.
  destruct w as [u pt ap i c tr], req as [m pa body]. simpl.
  intros -> -> -> Hok Hr Hp Hd Hdt Htm.
  unfold AppointmentApi.add_appointment. simpl json_body. rewrite !get_object.
  revert Hp Hd Hdt Htm.
  generalize (field "patient_id" (JObj fields)) (field "doctor" (JObj fields))
             (field "date" (JObj fields)) (field "time" (JObj fields)).
  intros patient_id doctor date time Hp Hd Hdt Htm.
  run_view. rewrite Hp, Hd, Hdt, Htm, (insert_ok a_id _ t Hok Hr).
  run_view. simpl. rewrite <- !app_assoc. reflexivity.
Qed.

(** *** Formats *)

Lemma is_digit_digit (z : Z) : is_digit (digit z) = true.
Proof.
  unfold digit.
  destruct z as [|p|p]; try reflexivity;
    repeat (destruct p as [p|p|]; try reflexivity).
Qed.

Lemma convert_date_120_matches (d : date) :
  matches_date (convert_date_120 d) = true.
Proof.
  unfold matches_date, convert_date_120.
  rewrite list_ascii_of_string_of_list_ascii.
  unfold pad4, pad2. simpl. rewrite !is_digit_digit. reflexivity.
Qed.

Lemma convert_time_108_matches (t : time) :
  matches_time (convert_time_108 t) = true.
Proof.
  unfold matches_time, convert_time_108.
  rewrite list_ascii_of_string_of_list_ascii.
  unfold pad2. simpl. rewrite !is_digit_digit. reflexivity.
Qed.

(** The scenario of the specification: the listing gives back the literal
    that was stored. *)
Example convert_date_120_example :
  option_map convert_date_120 (iso_date "2024-03-15") = Some "2024-03-15".
Proof. reflexivity. Qed.

Example convert_time_108_example :
  option_map convert_time_108 (iso_time "14:30:00") = Some "14:30".
Proof. reflexivity. Qed.

(** A field that the request lacks is bound as NULL by every column. *)
Lemma missing_field_is_null (cv : conversions) (k : string)
      (fields : list (string * json)) :
  lookup k fields = None ->
  field k (JObj fields) = JNull /\
  bind_int cv (field k (JObj fields)) = Some None /\
  (forall n, bind_varchar cv n (field k (JObj fields)) = Some None) /\
  bind_date cv (field k (JObj fields)) = Some None /\
  bind_time cv (field k (JObj fields)) = Some None.
Proof.
  intros H. unfold field. rewrite H. repeat split.
Qed.

(** *** The claims of the contract *)

(** C5.  For every state of the patients table, listing the patients
    answers 200 with one object per row, in the order of the table, each
    with the fields id, name and age of its row: nothing is filtered and
    nothing is cut.  On an empty table the answer is the empty sequence,
    with status 200. *)
Theorem list_patients_returns_every_row (cv : conversions) (w : world)
        (t : table patient_row) (body : json) :
  up w = true -> patients w = Some t ->
  let answer := fst (PatientApi.serve cv (mkRequest GET "/patients" body) w) in
  answer = Json 200 (JArr (map patient_json (rows t))) /\
  (exists items,
      body_of answer = JArr items /\
      List.length items = List.length (rows t) /\
      forall (i : nat) (r : patient_row),
        nth_error (rows t) i = Some r ->
        nth_error items i =
          Some (JObj [("id", JInt (p_id r));
                      ("name", json_of_text (p_name r));
                      ("age", json_of_int (p_age r))])) /\
  (rows t = [] -> answer = Json 200 (JArr [])) /\
  patients (snd (PatientApi.serve cv (mkRequest GET "/patients" body) w)) =
    Some t.
Proof.
  intros Hup Ht answer.
  assert (Ha : answer = Json 200 (JArr (map patient_json (rows t)))).
  { unfold answer, PatientApi.serve, handle. simpl.
    rewrite (get_patients_run cv w t Hup Ht). reflexivity. }
  split; [exact Ha|]. split; [|split].
  - exists (map patient_json (rows t)). rewrite Ha. simpl.
    split; [reflexivity|]. split; [apply length_map|].
    intros i r Hr. rewrite nth_error_map, Hr. reflexivity.
  - intros E. rewrite Ha, E. reflexivity.
  - unfold PatientApi.serve, handle. simpl.
    rewrite (get_patients_run cv w t Hup Ht). reflexivity.
Qed.

Lemma list_patients_returns_every_row_witness :
  fst (PatientApi.serve strict (mkRequest GET "/patients" JNull) fresh_world)
  = Json 200 (JArr []).
Proof.
  pose proof (list_patients_returns_every_row strict fresh_world empty_table
                JNull eq_refl eq_refl) as H.
  simpl in H. destruct H as [_ [_ [H _]]]. apply H. reflexivity.
Defined.

(** C3, the appointment service: the health view answers 200 with the
    constant body, whatever the state of the database and also when it
    cannot be reached, and calls the driver not once. *)
Lemma appointment_health_is_constant (cv : conversions) (w : world)
      (body : json) :
  let run := AppointmentApi.serve cv (mkRequest GET "/health" body) w in
  fst run = Json 200 (JObj [("status", JStr "healthy")]) /\
  no_database_access (new_events w (snd run)) = true /\
  patients (snd run) = patients w /\
  appointments (snd run) = appointments w.
Proof.
  destruct w as [u p a i c tr]. simpl.
  unfold handle, AppointmentApi.health. run_view.
  repeat split.
  rewrite (new_events_app _ _ [EvJsonify]) by reflexivity. reflexivity.
Qed.

(** C3, the patient service: its application registers the two
    [/patients] routes only, so a GET of [/health] is answered by the
    framework with 404, in every state of the database. *)
Theorem patient_health_not_found (cv : conversions) (w : world) (body : json) :
  PatientApi.serve cv (mkRequest GET "/health" body) w = (Failure 404, w).
Proof. reflexivity. Qed.

(** *** Unreachable database *)

Lemma get_patients_refused (cv : conversions) (w : world) :
  up w = false ->
  PatientApi.get_patients cv w = (Raise OperationalError, log EvRefused w).
Proof.
  destruct w as [u p a i c tr]. simpl. intros ->.
  unfold PatientApi.get_patients. run_view. reflexivity.
Qed.

Lemma get_appointments_refused (cv : conversions) (w : world) :
  up w = false ->
  AppointmentApi.get_appointments cv w =
    (Raise OperationalError, log EvRefused w).
Proof.
  destruct w as [u p a i c tr]. simpl. intros ->.
  unfold AppointmentApi.get_appointments. run_view. reflexivity.
Qed.

Lemma add_patient_refused (cv : conversions) (req : request) (w : world) :
  up w = false ->
  exists e w',
    PatientApi.add_patient cv req w = (Raise e, w') /\
    patients w' = patients w /\ appointments w' = appointments w.
Proof.
  destruct w as [u p a i c tr]. simpl. intros ->.
  unfold PatientApi.add_patient.
  destruct (json_body req); unfold get; run_view;
    eexists; eexists; (split; [reflexivity | split; reflexivity]).
Qed.

Lemma add_appointment_refused (cv : conversions) (req : request) (w : world) :
  up w = false ->
  exists e w',
    AppointmentApi.add_appointment cv req w = (Raise e, w') /\
    patients w' = patients w /\ appointments w' = appointments w.
Proof.
  destruct w as [u p a i c tr]. simpl. intros ->.
  unfold AppointmentApi.add_appointment.
  destruct (json_body req); unfold get; run_view;
    eexists; eexists; (split; [reflexivity | split; reflexivity]).
Qed.

(** C7.  When the connection cannot be established, every list and create
    operation of either service ends in the exception of the driver, which
    no view catches: the caller gets the error response of the framework
    (500), never a success, and no table has changed. *)
Theorem unreachable_database_fails (cv : conversions) (req : request)
        (w : world) :
  up w = false ->
  (fst (PatientApi.get_patients cv w) = Raise OperationalError /\
   fst (AppointmentApi.get_appointments cv w) = Raise OperationalError /\
   (exists e, fst (PatientApi.add_patient cv req w) = Raise e) /\
   (exists e, fst (AppointmentApi.add_appointment cv req w) = Raise e)) /\
  (forall view,
      In view [PatientApi.get_patients cv; PatientApi.add_patient cv req;
               AppointmentApi.get_appointments cv;
               AppointmentApi.add_appointment cv req] ->
      fst (handle view w) = Failure 500 /\
      patients (snd (handle view w)) = patients w /\
      appointments (snd (handle view w)) = appointments w).
Proof.
  intros H.
  destruct (add_patient_refused cv req w H) as [e1 [w1 [E1 [P1 A1]]]].
  destruct (add_appointment_refused cv req w H) as [e2 [w2 [E2 [P2 A2]]]].
  split.
  - rewrite (get_patients_refused cv w H), (get_appointments_refused cv w H),
      E1, E2. simpl. repeat split; eexists; reflexivity.
  - intros view [<- | [<- | [<- | [<- | []]]]]; unfold handle.
    + rewrite (get_patients_refused cv w H). repeat split.
    + rewrite E1. simpl. repeat split; assumption.
    + rewrite (get_appointments_refused cv w H). repeat split.
    + rewrite E2. simpl. repeat split; assumption.
Qed.

Lemma unreachable_database_fails_witness :
  fst (PatientApi.serve strict jane_doe (unreachable fresh_world))
  = Failure 500.
Proof.
  destruct (unreachable_database_fails strict jane_doe
              (unreachable fresh_world) eq_refl) as [_ H].
  apply (H (PatientApi.add_patient strict jane_doe)).
  right; left; reflexivity.
Defined.

(** *** Create, then list *)

Lemma field_lookup (k : string) (fields : list (string * json)) (v : json) :
  lookup k fields = Some v -> field k (JObj fields) = v.
Proof. intros H. unfold field. rewrite H. reflexivity. Qed.

Lemma serve_add_patient (cv : conversions) (w : world)
      (t : table patient_row) (fields : list (string * json))
      (n : option string) (a : option Z) :
  up w = true -> patients w = Some t -> identity_ok p_id t = true ->
  int_range (next_id t) = true ->
  bind_varchar cv 255 (field "name" (JObj fields)) = Some n ->
  bind_int cv (field "age" (JObj fields)) = Some a ->
  PatientApi.serve cv (mkRequest POST "/patients" (JObj fields)) w =
    (Json 200 (JObj [("id", JStr (decimal_string (next_id t)));
                     ("name", field "name" (JObj fields));
                     ("age", field "age" (JObj fields))]),
     mkWorld true
       (Some (mkTable (rows t ++ [mkPatient (next_id t) n a]) (next_id t + 1)))
       (appointments w) (Some (next_id t)) []
       (trace w ++ [EvConnect; EvExecute InsertPatient; EvCommit;
                    EvExecute SelectIdentity; EvExit; EvJsonify])).
Proof.
  intros Hup Ht Hok Hr Hn Ha.
  unfold PatientApi.serve, handle. simpl.
  rewrite (add_patient_run cv w t (mkRequest POST "/patients" (JObj fields))
             fields n a eq_refl Hup Ht Hok Hr Hn Ha).
  reflexivity.
Qed.

Lemma serve_add_appointment (cv : conversions) (w : world)
      (t : table appointment_row) (fields : list (string * json))
      (p : option Z) (d : option string) (dt : option date) (tm : option time) :
  up w = true -> appointments w = Some t -> identity_ok a_id t = true ->
  int_range (next_id t) = true ->
  bind_int cv (field "patient_id" (JObj fields)) = Some p ->
  bind_varchar cv 255 (field "doctor" (JObj fields)) = Some d ->
  bind_date cv (field "date" (JObj fields)) = Some dt ->
  bind_time cv (field "time" (JObj fields)) = Some tm ->
  AppointmentApi.serve cv (mkRequest POST "/appointments" (JObj fields)) w =
    (Json 200 (JObj [("id", JStr (decimal_string (next_id t)));
                     ("patient_id", field "patient_id" (JObj fields));
                     ("doctor", field "doctor" (JObj fields));
                     ("date", field "date" (JObj fields));
                     ("time", field "time" (JObj fields))]),
     mkWorld true (patients w)
       (Some (mkTable (rows t ++ [mkAppointment (next_id t) p d dt tm])
                      (next_id t + 1)))
       (Some (next_id t)) []
       (trace w ++ [EvConnect; EvExecute InsertAppointment; EvCommit;
                    EvExecute SelectIdentity; EvExit; EvJsonify])).
Proof.
  intros Hup Ht Hok Hr Hp Hd Hdt Htm.
  unfold AppointmentApi.serve, handle. simpl.
  rewrite (add_appointment_run cv w t
             (mkRequest POST "/appointments" (JObj fields))
             fields p d dt tm eq_refl Hup Ht Hok Hr Hp Hd Hdt Htm).
  reflexivity.
Qed.

Lemma serve_get_patients (cv : conversions) (w : world)
      (t : table patient_row) (body : json) :
  up w = true -> patients w = Some t ->
  fst (PatientApi.serve cv (mkRequest GET "/patients" body) w) =
    Json 200 (JArr (map patient_json (rows t))).
Proof.
  intros Hup Ht. unfold PatientApi.serve, handle. simpl.
  rewrite (get_patients_run cv w t Hup Ht). reflexivity.
Qed.

Lemma serve_get_appointments (cv : conversions) (w : world)
      (t : table appointment_row) (body : json) :
  up w = true -> appointments w = Some t ->
  fst (AppointmentApi.serve cv (mkRequest GET "/appointments" body) w) =
    Json 200 (JArr (map appointment_json (rows t))).
Proof.
  intros Hup Ht. unfold AppointmentApi.serve, handle. simpl.
  rewrite (get_appointments_run cv w t Hup Ht). reflexivity.
Qed.



(** The scenario on a fresh table: the listing shows the id as the number
    1, the answer to the creation as the string of that number. *)
Example jane_doe_scenario :
  fst (PatientApi.serve strict jane_doe fresh_world) =
    Json 200 (JObj [("id", JStr "1"); ("name", JStr "Jane Doe");
                    ("age", JInt 34)]) /\
  fst (PatientApi.serve strict (mkRequest GET "/patients" JNull)
         (snd (PatientApi.serve strict jane_doe fresh_world))) =
    Json 200 (JArr [JObj [("id", JInt 1); ("name", JStr "Jane Doe");
                          ("age", JInt 34)]]).
Proof. split; reflexivity. Qed.




(** *** No referential check *)

Lemma serve_appointment_ignores_patients (cv : conversions) (req : request)
      (w : world) (pt : option (table patient_row)) :
  fst (AppointmentApi.serve cv req (with_patients pt w)) =
    fst (AppointmentApi.serve cv req w) /\
  appointments (snd (AppointmentApi.serve cv req (with_patients pt w))) =
    appointments (snd (AppointmentApi.serve cv req w)).
Proof.
  destruct w as [u p a i c tr], req as [m pa body].
  unfold with_patients, AppointmentApi.serve. simpl.
  destruct (String.eqb pa "/appointments").
  - destruct m; try (split; reflexivity).
    + unfold AppointmentApi.get_appointments. run_view.
      destruct u; [|split; reflexivity].
      destruct a as [t|]; [|split; reflexivity].
      destruct (comprehension _ _); split; reflexivity.
    + unfold AppointmentApi.add_appointment.
      destruct body; unfold get; run_view; try (split; reflexivity).
      destruct u; [|split; reflexivity].
      destruct a as [t|]; [|split; reflexivity].
      destruct (bind_int cv _); [|split; reflexivity].
      destruct (bind_varchar cv _ _); [|split; reflexivity].
      destruct (bind_date cv _); [|split; reflexivity].
      destruct (bind_time cv _); [|split; reflexivity].
      destruct (insert _ _ _) as [t' [j| |]]; split; reflexivity.
  - destruct (String.eqb pa "/health"); [|split; reflexivity].
    destruct m; split; reflexivity.
Qed.

(** C6.  Creating an appointment never looks at the patients table: the
    answer and the appointments table after it are the same whatever
    patients exist, and with values that the columns take (and an identity
    value left) the creation succeeds, and the record is listed afterwards,
    for every [patient_id] and every state of the patients table, also when
    no patient has that id or the table is empty or missing. *)
Theorem create_appointment_checks_no_patient (cv : conversions) (w : world)
        (t : table appointment_row) (fields : list (string * json))
        (p : option Z) (d : option string) (dt : option date)
        (tm : option time) (pt : option (table patient_row)) (body : json) :
  up w = true -> appointments w = Some t -> identity_ok a_id t = true ->
  int_range (next_id t) = true ->
  bind_int cv (field "patient_id" (JObj fields)) = Some p ->
  bind_varchar cv 255 (field "doctor" (JObj fields)) = Some d ->
  bind_date cv (field "date" (JObj fields)) = Some dt ->
  bind_time cv (field "time" (JObj fields)) = Some tm ->
  let req := mkRequest POST "/appointments" (JObj fields) in
  let created := AppointmentApi.serve cv req (with_patients pt w) in
  status_of (fst created) = 200 /\
  field "patient_id" (body_of (fst created)) =
    field "patient_id" (JObj fields) /\
  fst (AppointmentApi.serve cv (mkRequest GET "/appointments" body)
         (snd created)) =
    Json 200 (JArr (map appointment_json (rows t) ++
                    [appointment_json (mkAppointment (next_id t) p d dt tm)])) /\
  patients (snd created) = pt /\
  fst created = fst (AppointmentApi.serve cv req w).
Proof.
  intros Hup Ht Hok Hid Hp Hd Hdt Htm req created.
  assert (Hc := serve_add_appointment cv (with_patients pt w) t fields
                  p d dt tm Hup Ht Hok Hid Hp Hd Hdt Htm).
  fold req in Hc. fold created in Hc.
  split; [rewrite Hc; reflexivity|].
  split; [rewrite Hc; reflexivity|].
  split; [|split].
  - rewrite Hc. simpl snd.
    erewrite serve_get_appointments; [|reflexivity|reflexivity]. simpl.
    rewrite map_app. reflexivity.
  - rewrite Hc. reflexivity.
  - apply (serve_appointment_ignores_patients cv req w pt).
Qed.

(** An appointment for patient 1 while the patients table is empty. *)
Lemma create_appointment_checks_no_patient_witness :
  status_of (fst (AppointmentApi.serve strict dr_smith
                    (with_patients (Some empty_table) fresh_world))) = 200 /\
  fst (AppointmentApi.serve strict (mkRequest GET "/appointments" JNull)
         (snd (AppointmentApi.serve strict dr_smith
                 (with_patients (Some empty_table) fresh_world)))) =
    Json 200 (JArr [JObj [("id", JInt 1); ("patient_id", JInt 1);
                          ("doctor", JStr "Dr. Smith");
                          ("date", JStr "2024-03-15");
                          ("time", JStr "14:30")]]).
Proof.
  destruct (create_appointment_checks_no_patient strict fresh_world
              empty_table
              [("patient_id", JInt 1); ("doctor", JStr "Dr. Smith");
               ("date", JStr "2024-03-15"); ("time", JStr "14:30")]
              (Some 1) (Some "Dr. Smith") (Some (mkDate 2024 3 15))
              (Some (mkTime 14 30 0)) (Some empty_table) JNull
              eq_refl eq_refl eq_refl eq_refl eq_refl eq_refl eq_refl eq_refl)
    as [H1 [_ [H2 _]]].
  split; [exact H1 | exact H2].
Defined.

(** *** Missing fields *)

Lemma absent_or_accepted_binds {A} (bind : json -> option (option A))
      (k : string) (fields : list (string * json)) :
  bind JNull = Some None ->
  absent_or_accepted bind k fields ->
  exists x, bind (field k (JObj fields)) = Some x /\
            (lookup k fields = None -> x = None).
Proof.
  intros Hnull Hacc. unfold field.
  destruct (lookup k fields) as [v|] eqn:E.
  - destruct (bind v) as [x|] eqn:B.
    + exists x. split; [reflexivity | discriminate].
    + exfalso. exact (Hacc v E B).
  - exists None. split; [exact Hnull | reflexivity].
Qed.

(** C10.  A request that lacks name or age (for appointments: any of
    patient_id, doctor, date, time), and whose other fields the columns
    take, is created all the same, as long as the identity column has a
    value left: the answer is 200, the row is added, and each column whose
    field is missing holds NULL.  No column but the key is NOT NULL, so the
    database refuses no parameter for being missing. *)
Theorem create_with_missing_fields (cv : conversions) (w : world)
        (fields : list (string * json)) :
  up w = true ->
  (forall t, patients w = Some t -> identity_ok p_id t = true ->
     int_range (next_id t) = true ->
     absent_or_accepted (bind_varchar cv 255) "name" fields ->
     absent_or_accepted (bind_int cv) "age" fields ->
     let created :=
       PatientApi.serve cv (mkRequest POST "/patients" (JObj fields)) w in
     exists n a,
       status_of (fst created) = 200 /\
       patients (snd created) =
         Some (mkTable (rows t ++ [mkPatient (next_id t) n a])
                       (next_id t + 1)) /\
       (lookup "name" fields = None -> n = None) /\
       (lookup "age" fields = None -> a = None)) /\
  (forall t, appointments w = Some t -> identity_ok a_id t = true ->
     int_range (next_id t) = true ->
     absent_or_accepted (bind_int cv) "patient_id" fields ->
     absent_or_accepted (bind_varchar cv 255) "doctor" fields ->
     absent_or_accepted (bind_date cv) "date" fields ->
     absent_or_accepted (bind_time cv) "time" fields ->
     let created :=
       AppointmentApi.serve cv
         (mkRequest POST "/appointments" (JObj fields)) w in
     exists p d dt tm,
       status_of (fst created) = 200 /\
       appointments (snd created) =
         Some (mkTable (rows t ++ [mkAppointment (next_id t) p d dt tm])
                       (next_id t + 1)) /\
       (lookup "patient_id" fields = None -> p = None) /\
       (lookup "doctor" fields = None -> d = None) /\
       (lookup "date" fields = None -> dt = None) /\
       (lookup "time" fields = None -> tm = None)).
Proof.
  intros Hup. split.
  - intros t Ht Hok Hid Hname Hage created.
    destruct (absent_or_accepted_binds _ _ _ eq_refl Hname) as [n [Hn Nn]].
    destruct (absent_or_accepted_binds _ _ _ eq_refl Hage) as [a [Ha Na]].
    exists n, a. unfold created.
    rewrite (serve_add_patient cv w t fields n a Hup Ht Hok Hid Hn Ha).
    repeat split; assumption.
  - intros t Ht Hok Hid Hpid Hdoc Hdate Htime created.
    destruct (absent_or_accepted_binds _ _ _ eq_refl Hpid) as [p [Hp Np]].
    destruct (absent_or_accepted_binds _ _ _ eq_refl Hdoc) as [d [Hd Nd]].
    destruct (absent_or_accepted_binds _ _ _ eq_refl Hdate) as [dt [Hdt Ndt]].
    destruct (absent_or_accepted_binds _ _ _ eq_refl Htime) as [tm [Htm Ntm]].
    exists p, d, dt, tm. unfold created.
    rewrite (serve_add_appointment cv w t fields p d dt tm Hup Ht Hok Hid
               Hp Hd Hdt Htm).
    repeat split; assumption.
Qed.

(** The empty object creates a patient and an appointment made of NULLs. *)
Lemma create_with_missing_fields_witness :
  (exists n a,
     status_of (fst (PatientApi.serve strict (empty_object POST "/patients")
                       fresh_world)) = 200 /\
     patients (snd (PatientApi.serve strict (empty_object POST "/patients")
                      fresh_world)) =
       Some (mkTable [mkPatient 1 n a] 2) /\
     n = None /\ a = None) /\
  (exists p d dt tm,
     status_of (fst (AppointmentApi.serve strict
                       (empty_object POST "/appointments") fresh_world))
       = 200 /\
     appointments (snd (AppointmentApi.serve strict
                          (empty_object POST "/appointments") fresh_world)) =
       Some (mkTable [mkAppointment 1 p d dt tm] 2) /\
     p = None /\ d = None /\ dt = None /\ tm = None).
Proof.
  destruct (create_with_missing_fields strict fresh_world [] eq_refl)
    as [HP HA].
  assert (Habs : forall A (b : json -> option (option A)) k,
             absent_or_accepted b k [])
    by (intros A b k v E; discriminate E).
  split.
  - destruct (HP empty_table eq_refl eq_refl eq_refl (Habs _ _ _)
                (Habs _ _ _))
      as [n [a [H1 [H2 [H3 H4]]]]].
    exists n, a.
    exact (conj H1 (conj H2 (conj (H3 eq_refl) (H4 eq_refl)))).
  - destruct (HA empty_table eq_refl eq_refl eq_refl (Habs _ _ _)
                (Habs _ _ _) (Habs _ _ _) (Habs _ _ _))
      as [p [d [dt [tm [H1 [H2 [H3 [H4 [H5 H6]]]]]]]]].
    exists p, d, dt, tm.
    exact (conj H1 (conj H2 (conj (H3 eq_refl) (conj (H4 eq_refl)
             (conj (H5 eq_refl) (H6 eq_refl)))))).
Defined.

(** *** Formats of dates and times *)

(** C2, as the code has it.  For every state of the appointments table,
    each record that the listing returns has a date that is null when the
    stored date is NULL and otherwise matches [^\d{4}-\d{2}-\d{2}$], and a
    time that is null when the stored time is NULL and otherwise matches
    [^\d{2}:\d{2}$].  The answer to a creation that succeeds (values the
    columns take, an identity value left) carries the date and the time of
    the request as they were given. *)
Theorem listed_date_and_time_format (cv : conversions) (w : world)
        (t : table appointment_row) (body : json) :
  up w = true -> appointments w = Some t ->
  (exists items,
     fst (AppointmentApi.serve cv (mkRequest GET "/appointments" body) w) =
       Json 200 (JArr items) /\
     List.length items = List.length (rows t) /\
     forall (i : nat) (r : appointment_row),
       nth_error (rows t) i = Some r ->
       exists item,
         nth_error items i = Some item /\
         match a_date r with
         | Some _ => is_date_string (field "date" item) = true
         | None => field "date" item = JNull
         end /\
         match a_time r with
         | Some _ => is_time_string (field "time" item) = true
         | None => field "time" item = JNull
         end) /\
  (forall fields p d dt tm,
     identity_ok a_id t = true ->
     int_range (next_id t) = true ->
     bind_int cv (field "patient_id" (JObj fields)) = Some p ->
     bind_varchar cv 255 (field "doctor" (JObj fields)) = Some d ->
     bind_date cv (field "date" (JObj fields)) = Some dt ->
     bind_time cv (field "time" (JObj fields)) = Some tm ->
     let answer :=
       fst (AppointmentApi.serve cv
              (mkRequest POST "/appointments" (JObj fields)) w) in
     status_of answer = 200 /\
     field "date" (body_of answer) = field "date" (JObj fields) /\
     field "time" (body_of answer) = field "time" (JObj fields)).
Proof.
  intros Hup Ht. split.
  - exists (map appointment_json (rows t)).
    split; [apply serve_get_appointments; assumption|].
    split; [apply length_map|].
    intros i r Hr. exists (appointment_json r).
    split; [rewrite nth_error_map, Hr; reflexivity|].
    unfold appointment_json, field. simpl.
    destruct (a_date r) as [d|], (a_time r) as [tm|]; simpl;
      rewrite ?convert_date_120_matches, ?convert_time_108_matches;
      split; reflexivity.
  - intros fields p d dt tm Hok Hid Hp Hd Hdt Htm answer. unfold answer.
    rewrite (serve_add_appointment cv w t fields p d dt tm Hup Ht Hok Hid
               Hp Hd Hdt Htm).
    repeat split.
Qed.

Lemma listed_date_and_time_format_witness :
  exists items,
    fst (AppointmentApi.serve strict (mkRequest GET "/appointments" JNull)
           (snd (AppointmentApi.serve strict dr_smith_seconds fresh_world))) =
      Json 200 (JArr items) /\
    List.length items = 1%nat.
Proof.
  destruct (listed_date_and_time_format strict
              (snd (AppointmentApi.serve strict dr_smith_seconds fresh_world))
              (mkTable [mkAppointment 1 (Some 1) (Some "Dr. Smith")
                          (Some (mkDate 2024 3 15)) (Some (mkTime 14 30 0))] 2)
              JNull eq_refl eq_refl) as [[items [H1 [H2 _]]] _].
  exists items. split; [exact H1 | exact H2].
Defined.

(** C2 as stated fails on the answer to a creation: a time given with its
    seconds is taken by the [TIME] column and comes back in the answer as
    it was given, which is not [hh:mm]; and a row without a date is listed
    with a null date. *)
Lemma create_answer_time_not_normalised :
  (status_of (fst (AppointmentApi.serve strict dr_smith_seconds fresh_world))
   = 200 /\
   field "time"
     (body_of (fst (AppointmentApi.serve strict dr_smith_seconds fresh_world)))
   = JStr "14:30:00" /\
   is_time_string
     (field "time"
        (body_of (fst (AppointmentApi.serve strict dr_smith_seconds
                         fresh_world)))) = false) /\
  (fst (AppointmentApi.serve strict (mkRequest GET "/appointments" JNull)
          (snd (AppointmentApi.serve strict
                  (empty_object POST "/appointments") fresh_world))) =
     Json 200 (JArr [JObj [("id", JInt 1); ("patient_id", JNull);
                           ("doctor", JNull); ("date", JNull);
                           ("time", JNull)]]) /\
   is_date_string JNull = false).
Proof. repeat split. Qed.

(** *** The answer to a creation echoes the request *)

Lemma add_appointment_echoes (cv : conversions) (req : request) (w : world)
      (r : response) (w' : world) :
  AppointmentApi.add_appointment cv req w = (Val r, w') ->
  exists i,
    r = Json 200 (JObj [("id", i);
                        ("patient_id", field "patient_id" (json_body req));
                        ("doctor", field "doctor" (json_body req));
                        ("date", field "date" (json_body req));
                        ("time", field "time" (json_body req))]).
Proof.
  destruct w as [u p a i c tr], req as [m pa body].
  unfold AppointmentApi.add_appointment. simpl json_body.
  destruct body; try (unfold get; run_view; discriminate).
  rewrite !get_object.
  generalize (field "patient_id" (JObj fields)) (field "doctor" (JObj fields))
             (field "date" (JObj fields)) (field "time" (JObj fields)).
  intros patient_id doctor date time. run_view.
  destruct u; [|discriminate].
  destruct a as [t|]; [|discriminate].
  destruct (bind_int cv _); [|discriminate].
  destruct (bind_varchar cv _ _); [|discriminate].
  destruct (bind_date cv _); [|discriminate].
  destruct (bind_time cv _); [|discriminate].
  destruct (insert _ _ _) as [t' [j| |]]; [|discriminate|discriminate].
  simpl. intros H. injection H as <- _. eexists. reflexivity.
Qed.

(** C9.  A successful answer to the creation of an appointment carries
    patient_id, doctor, date and time exactly as the request supplied
    them, with no normalisation; so one and the same stored record can
    show one time string in the answer to its creation and another in the
    listing that follows, where CONVERT has normalised it. *)
Theorem create_appointment_echoes_request :
  (forall (cv : conversions) (req : request) (w w' : world) (r : response),
      AppointmentApi.add_appointment cv req w = (Val r, w') ->
      exists i,
        r = Json 200
              (JObj [("id", i);
                     ("patient_id", field "patient_id" (json_body req));
                     ("doctor", field "doctor" (json_body req));
                     ("date", field "date" (json_body req));
                     ("time", field "time" (json_body req))])) /\
  (let created := AppointmentApi.serve strict dr_smith_seconds fresh_world in
   status_of (fst created) = 200 /\
   field "time" (body_of (fst created)) = JStr "14:30:00" /\
   exists listed,
     fst (AppointmentApi.serve strict (mkRequest GET "/appointments" JNull)
            (snd created)) = Json 200 (JArr [listed]) /\
     field "time" listed = JStr "14:30" /\
     field "date" listed = field "date" (body_of (fst created))).
Proof.
  split.
  - intros cv req w w' r H.
    exact (add_appointment_echoes cv req w r w' H).
  - cbv zeta. split; [reflexivity|]. split; [reflexivity|].
    eexists. split; [reflexivity|]. split; reflexivity.
Qed.

Lemma create_appointment_echoes_request_witness :
  exists i,
    fst (AppointmentApi.add_appointment strict dr_smith_seconds fresh_world) =
    Val (Json 200
           (JObj [("id", i);
                  ("patient_id", field "patient_id" (json_body dr_smith_seconds));
                  ("doctor", field "doctor" (json_body dr_smith_seconds));
                  ("date", field "date" (json_body dr_smith_seconds));
                  ("time", field "time" (json_body dr_smith_seconds))])).
Proof.
  destruct create_appointment_echoes_request as [H _].
  destruct (H strict dr_smith_seconds fresh_world
              (snd (AppointmentApi.add_appointment strict dr_smith_seconds
                      fresh_world))
              (match fst (AppointmentApi.add_appointment strict
                            dr_smith_seconds fresh_world) with
               | Val r => r
               | Raise _ => Failure 500
               end)
              eq_refl) as [i Hi].
  exists i. rewrite <- Hi. reflexivity.
Defined.

(** *** Scoped connections *)

Ltac trace_done :=
  unfold new_events; simpl; rewrite <- ?app_assoc;
  first [ rewrite skipn_all; reflexivity
        | rewrite skipn_app, skipn_all, Nat.sub_diag; reflexivity ].

Lemma get_patients_scoped (cv : conversions) (w : world) :
  scoped (new_events w (snd (PatientApi.get_patients cv w))) = true /\
  connects (new_events w (snd (PatientApi.get_patients cv w))) = up w /\
  first_event (new_events w (snd (PatientApi.get_patients cv w))) =
    Some (if up w then EvConnect else EvRefused).
Proof.
  destruct w as [u p a i c tr].
  unfold PatientApi.get_patients. run_view.
  destruct u; [|repeat split; trace_done].
  destruct p as [t|]; [|repeat split; trace_done].
  destruct (comprehension _ _); repeat split; trace_done.
Qed.

Lemma get_appointments_scoped (cv : conversions) (w : world) :
  scoped (new_events w (snd (AppointmentApi.get_appointments cv w))) = true /\
  connects (new_events w (snd (AppointmentApi.get_appointments cv w))) = up w /\
  first_event (new_events w (snd (AppointmentApi.get_appointments cv w))) =
    Some (if up w then EvConnect else EvRefused).
Proof.
  destruct w as [u p a i c tr].
  unfold AppointmentApi.get_appointments. run_view.
  destruct u; [|repeat split; trace_done].
  destruct a as [t|]; [|repeat split; trace_done].
  destruct (comprehension _ _); repeat split; trace_done.
Qed.

Lemma add_patient_scoped (cv : conversions) (req : request) (w : world) :
  scoped (new_events w (snd (PatientApi.add_patient cv req w))) = true /\
  connects (new_events w (snd (PatientApi.add_patient cv req w))) =
    match json_body req with JObj _ => up w | _ => false end /\
  first_event (new_events w (snd (PatientApi.add_patient cv req w))) =
    match json_body req with
    | JObj _ => Some (if up w then EvConnect else EvRefused)
    | _ => None
    end.
Proof.
  destruct w as [u p a i c tr], req as [m pa body].
  unfold PatientApi.add_patient. simpl json_body.
  destruct body; try (unfold get; run_view; repeat split; trace_done).
  rewrite !get_object.
  generalize (field "name" (JObj fields)) (field "age" (JObj fields)).
  intros name age. run_view.
  destruct u; [|repeat split; trace_done].
  destruct p as [t|]; [|repeat split; trace_done].
  destruct (bind_varchar cv _ _); [|repeat split; trace_done].
  destruct (bind_int cv _); [|repeat split; trace_done].
  destruct (insert _ _ _) as [t' [j| |]]; repeat split; trace_done.
Qed.

Lemma add_appointment_scoped (cv : conversions) (req : request) (w : world) :
  scoped (new_events w (snd (AppointmentApi.add_appointment cv req w)))
    = true /\
  connects (new_events w (snd (AppointmentApi.add_appointment cv req w))) =
    match json_body req with JObj _ => up w | _ => false end /\
  first_event (new_events w (snd (AppointmentApi.add_appointment cv req w))) =
    match json_body req with
    | JObj _ => Some (if up w then EvConnect else EvRefused)
    | _ => None
    end.
Proof.
  destruct w as [u p a i c tr], req as [m pa body].
  unfold AppointmentApi.add_appointment. simpl json_body.
  destruct body; try (unfold get; run_view; repeat split; trace_done).
  rewrite !get_object.
  generalize (field "patient_id" (JObj fields)) (field "doctor" (JObj fields))
             (field "date" (JObj fields)) (field "time" (JObj fields)).
  intros patient_id doctor date time. run_view.
  destruct u; [|repeat split; trace_done].
  destruct a as [t|]; [|repeat split; trace_done].
  destruct (bind_int cv _); [|repeat split; trace_done].
  destruct (bind_varchar cv _ _); [|repeat split; trace_done].
  destruct (bind_date cv _); [|repeat split; trace_done].
  destruct (bind_time cv _); [|repeat split; trace_done].
  destruct (insert _ _ _) as [t' [j| |]]; repeat split; trace_done.
Qed.

Lemma startup_scoped (cv : conversions) (w : world) :
  scoped (new_events w (snd (PatientApi.startup cv w))) = true /\
  scoped (new_events w (snd (AppointmentApi.startup cv w))) = true.
Proof.
  destruct w as [u p a i c tr].
  unfold PatientApi.startup, AppointmentApi.startup. run_view.
  destruct u; [|split; trace_done].
  destruct p, a; split; trace_done.
Qed.

(** The with blocks of the views are well bracketed.  In every list and
    create view of either service, on every path (success, refused
    connection, statement refused by the database, request that is not an
    object), a connection is obtained only at the head of a with block that
    is left before the response is built and before the view ends, and
    statements and commits happen only inside that block.  A list view
    connects first thing; a create view reads the request first.  This is
    about the block only: what leaving it does to the handle is the
    driver's business, and the world holds no handle. *)
Theorem connections_are_scoped (cv : conversions) (req : request) (w : world) :
  let connection := Some (if up w then EvConnect else EvRefused) in
  (forall view,
      In view [PatientApi.get_patients cv; PatientApi.add_patient cv req;
               AppointmentApi.get_appointments cv;
               AppointmentApi.add_appointment cv req] ->
      scoped (new_events w (snd (view w))) = true) /\
  (forall view,
      In view [PatientApi.get_patients cv;
               AppointmentApi.get_appointments cv] ->
      connects (new_events w (snd (view w))) = up w /\
      first_event (new_events w (snd (view w))) = connection) /\
  (forall view,
      In view [PatientApi.add_patient cv req;
               AppointmentApi.add_appointment cv req] ->
      connects (new_events w (snd (view w))) =
        match json_body req with JObj _ => up w | _ => false end /\
      first_event (new_events w (snd (view w))) =
        match json_body req with JObj _ => connection | _ => None end) /\
  connects (new_events w (snd (AppointmentApi.health w))) = false.
Proof.
  intros connection. split; [|split; [|split]].
  - intros view [<- | [<- | [<- | [<- | []]]]].
    + apply get_patients_scoped.
    + apply add_patient_scoped.
    + apply get_appointments_scoped.
    + apply add_appointment_scoped.
  - intros view [<- | [<- | []]].
    + apply get_patients_scoped.
    + apply get_appointments_scoped.
  - intros view [<- | [<- | []]].
    + apply add_patient_scoped.
    + apply add_appointment_scoped.
  - destruct w as [u p a i c tr]. unfold AppointmentApi.health. run_view.
    trace_done.
Qed.

(** The health view makes no call to the driver, with the database up or
    down. *)
Lemma health_obtains_no_connection :
  new_events fresh_world (snd (AppointmentApi.health fresh_world)) =
    [EvJsonify] /\
  connects (new_events fresh_world (snd (AppointmentApi.health fresh_world)))
    = false /\
  connects (new_events (unreachable fresh_world)
              (snd (AppointmentApi.health (unreachable fresh_world)))) = false.
Proof. repeat split. Qed.

Lemma connections_are_scoped_witness :
  scoped (new_events fresh_world
            (snd (PatientApi.add_patient strict jane_doe fresh_world))) = true.
Proof.
  destruct (connections_are_scoped strict jane_doe fresh_world) as [H _].
  apply (H (PatientApi.add_patient strict jane_doe)).
  right; left; reflexivity.
Defined.

(** *** The identity invariant holds of every reachable world *)

Lemma patient_serve_keeps_tables_ok (cv : conversions) (req : request)
      (w : world) :
  tables_ok w -> tables_ok (snd (PatientApi.serve cv req w)).
Proof.
  destruct w as [u p a i c tr], req as [m pa body].
  unfold tables_ok, PatientApi.serve. cbn [patients appointments path method].
  intros [Hp Ha].
  destruct (String.eqb pa "/patients"); [|split; assumption].
  destruct m; try (split; assumption).
  - unfold PatientApi.get_patients. run_view.
    destruct u; [|split; assumption].
    destruct p as [t|]; [|split; assumption].
    destruct (comprehension _ _); split; assumption.
  - unfold PatientApi.add_patient. cbn [json_body].
    destruct body; try (unfold get; run_view; split; assumption).
    rewrite !get_object.
    generalize (field "name" (JObj fields)) (field "age" (JObj fields)).
    intros name age. run_view.
    destruct u; [|split; assumption].
    destruct p as [t|]; [|split; assumption].
    destruct (bind_varchar cv _ _) as [n|]; [|split; assumption].
    destruct (bind_int cv _) as [g|]; [|split; assumption].
    rewrite (insert_under_invariant p_id _ t Hp).
    destruct (int_range (next_id t)); cbn [snd]; [|split; assumption].
    split; [|assumption].
    apply (identity_ok_after_insert p_id (fun j => mkPatient j n g) t);
      [reflexivity | assumption].
Qed.

Lemma appointment_serve_keeps_tables_ok (cv : conversions) (req : request)
      (w : world) :
  tables_ok w -> tables_ok (snd (AppointmentApi.serve cv req w)).
Proof.
  destruct w as [u p a i c tr], req as [m pa body].
  unfold tables_ok, AppointmentApi.serve.
  cbn [patients appointments path method].
  intros [Hp Ha].
  destruct (String.eqb pa "/appointments").
  - destruct m; try (split; assumption).
    + unfold AppointmentApi.get_appointments. run_view.
      destruct u; [|split; assumption].
      destruct a as [t|]; [|split; assumption].
      destruct (comprehension _ _); split; assumption.
    + unfold AppointmentApi.add_appointment. cbn [json_body].
      destruct body; try (unfold get; run_view; split; assumption).
      rewrite !get_object.
      generalize (field "patient_id" (JObj fields))
                 (field "doctor" (JObj fields))
                 (field "date" (JObj fields)) (field "time" (JObj fields)).
      intros patient_id doctor date time. run_view.
      destruct u; [|split; assumption].
      destruct a as [t|]; [|split; assumption].
      destruct (bind_int cv _) as [q|]; [|split; assumption].
      destruct (bind_varchar cv _ _) as [d|]; [|split; assumption].
      destruct (bind_date cv _) as [dt|]; [|split; assumption].
      destruct (bind_time cv _) as [tm|]; [|split; assumption].
      rewrite (insert_under_invariant a_id _ t Ha).
      destruct (int_range (next_id t)); cbn [snd]; [|split; assumption].
      split; [assumption|].
      apply (identity_ok_after_insert a_id
               (fun j => mkAppointment j q d dt tm) t);
        [reflexivity | assumption].
  - destruct (String.eqb pa "/health"); [|split; assumption].
    destruct m; split; assumption.
Qed.

Lemma startup_keeps_tables_ok (cv : conversions) (w : world) :
  tables_ok w ->
  tables_ok (snd (PatientApi.startup cv w)) /\
  tables_ok (snd (AppointmentApi.startup cv w)).
Proof.
  destruct w as [u p a i c tr].
  unfold tables_ok, PatientApi.startup, AppointmentApi.startup.
  cbn [patients appointments]. intros [Hp Ha]. run_view.
  destruct u; [|repeat split; assumption].
  destruct p as [t|], a as [t'|]; repeat split; assumption.
Qed.

Lemma step_keeps_tables_ok (cv : conversions) (w w' : world) :
  step cv w w' -> tables_ok w -> tables_ok w'.
Proof.
  intros S H. destruct S.
  - apply (startup_keeps_tables_ok cv w H).
  - apply (startup_keeps_tables_ok cv w H).
  - apply patient_serve_keeps_tables_ok. exact H.
  - apply appointment_serve_keeps_tables_ok. exact H.
  - exact H.
Qed.

(** Whatever the services have done since the database was empty, every id
    of either table lies below the next identity value of its table. *)
Lemma reachable_tables_ok (cv : conversions) (w : world) :
  reachable cv w -> tables_ok w.
Proof.
  induction 1 as [u tr | w w' _ IH S].
  - split; exact I.
  - exact (step_keeps_tables_ok cv w w' S IH).
Qed.

(** After its start-up a service finds its table, if the database could be
    reached then. *)
Lemma startup_creates_table (cv : conversions) (w : world) :
  up w = true ->
  patients (snd (PatientApi.startup cv w)) <> None /\
  appointments (snd (AppointmentApi.startup cv w)) <> None.
Proof.
  destruct w as [u p a i c tr]. simpl. intros ->.
  unfold PatientApi.startup, AppointmentApi.startup. run_view.
  destruct p, a; split; discriminate.
Qed.

(** ** Further properties of the services *)

(** *** Start-up *)

(** What a start-up block does to the world. *)
Lemma startup_effect (cv : conversions) (w : world) :
  (patients (snd (PatientApi.startup cv w)) =
     (if up w
      then Some (match patients w with Some t => t | None => empty_table end)
      else patients w) /\
   appointments (snd (PatientApi.startup cv w)) = appointments w /\
   fst (PatientApi.startup cv w) =
     (if up w then Val tt else Raise OperationalError)) /\
  (appointments (snd (AppointmentApi.startup cv w)) =
     (if up w
      then Some (match appointments w with
                 | Some t => t
                 | None => empty_table
                 end)
      else appointments w) /\
   patients (snd (AppointmentApi.startup cv w)) = patients w /\
   fst (AppointmentApi.startup cv w) =
     (if up w then Val tt else Raise OperationalError)).
Proof.
  destruct w as [u p a i c tr].
  unfold PatientApi.startup, AppointmentApi.startup. run_view.
  destruct u; [|repeat split].
  destruct p as [t|], a as [t'|]; repeat split.
Qed.

Lemma startup_tables (cv : conversions) (w : world) :
  up (snd (PatientApi.startup cv w)) = up w /\
  up (snd (AppointmentApi.startup cv w)) = up w.
Proof.
  destruct w as [u p a i c tr].
  unfold PatientApi.startup, AppointmentApi.startup. run_view.
  destruct u; [|repeat split].
  destruct p as [t|], a as [t'|]; repeat split.
Qed.

(** X1.  The start-up block of a service creates its table, empty and with
    identity seed 1, only when the table is missing; a table that exists is
    left as it is, and the other service's table is never touched.  When the
    database cannot be reached the block raises the driver's error, so the
    module is not loaded, and nothing is created. *)
Theorem startup_creates_only_missing_table (cv : conversions) (w : world) :
  (patients (snd (PatientApi.startup cv w)) =
     (if up w
      then Some (match patients w with Some t => t | None => empty_table end)
      else patients w) /\
   appointments (snd (PatientApi.startup cv w)) = appointments w /\
   fst (PatientApi.startup cv w) =
     (if up w then Val tt else Raise OperationalError)) /\
  (appointments (snd (AppointmentApi.startup cv w)) =
     (if up w
      then Some (match appointments w with
                 | Some t => t
                 | None => empty_table
                 end)
      else appointments w) /\
   patients (snd (AppointmentApi.startup cv w)) = patients w /\
   fst (AppointmentApi.startup cv w) =
     (if up w then Val tt else Raise OperationalError)).
Proof.
  destruct w as [u p a i c tr].
  unfold PatientApi.startup, AppointmentApi.startup. run_view.
  destruct u; [|repeat split].
  destruct p as [t|], a as [t'|]; repeat split.
Qed.

(** X2.  Start-up is idempotent on the tables: a second start of a service
    (a restart, a second replica) changes neither table.  And a service
    started on a reachable database that lacks its table answers its first
    listing with 200 and the empty sequence. *)
Theorem startup_is_idempotent (cv : conversions) (w : world) :
  (let w1 := snd (PatientApi.startup cv w) in
   patients (snd (PatientApi.startup cv w1)) = patients w1 /\
   appointments (snd (PatientApi.startup cv w1)) = appointments w1) /\
  (let w1 := snd (AppointmentApi.startup cv w) in
   patients (snd (AppointmentApi.startup cv w1)) = patients w1 /\
   appointments (snd (AppointmentApi.startup cv w1)) = appointments w1) /\
  (up w = true -> patients w = None ->
   fst (PatientApi.serve cv list_patients (snd (PatientApi.startup cv w))) =
     Json 200 (JArr [])) /\
  (up w = true -> appointments w = None ->
   fst (AppointmentApi.serve cv list_appointments
          (snd (AppointmentApi.startup cv w))) =
     Json 200 (JArr [])).
Proof.
  split; [|split; [|split]].
  - cbv zeta.
    destruct (startup_effect cv
                (snd (PatientApi.startup cv w))) as [[P [A _]] _].
    rewrite P, A. split; [|reflexivity].
    destruct (startup_tables cv w) as [U _]. rewrite U.
    destruct (startup_effect cv w) as [[P0 _] _].
    rewrite P0. destruct (up w); [|reflexivity].
    destruct (patients w); reflexivity.
  - cbv zeta.
    destruct (startup_effect cv
                (snd (AppointmentApi.startup cv w))) as [_ [A [P _]]].
    rewrite P, A. split; [reflexivity|].
    destruct (startup_tables cv w) as [_ U]. rewrite U.
    destruct (startup_effect cv w) as [_ [A0 _]].
    rewrite A0. destruct (up w); [|reflexivity].
    destruct (appointments w); reflexivity.
  - intros Hup Hp.
    destruct (startup_effect cv w) as [[P _] _].
    rewrite Hup, Hp in P.
    destruct (startup_tables cv w) as [U _]. rewrite Hup in U.
    unfold list_patients.
    rewrite (serve_get_patients cv _ empty_table JNull U P). reflexivity.
  - intros Hup Ha.
    destruct (startup_effect cv w) as [_ [A _]].
    rewrite Hup, Ha in A.
    destruct (startup_tables cv w) as [_ U]. rewrite Hup in U.
    unfold list_appointments.
    rewrite (serve_get_appointments cv _ empty_table JNull U A). reflexivity.
Qed.

Lemma startup_is_idempotent_witness :
  fst (PatientApi.serve strict list_patients
         (snd (PatientApi.startup strict (no_tables true)))) =
    Json 200 (JArr []).
Proof.
  destruct (startup_is_idempotent strict (no_tables true)) as [_ [_ [H _]]].
  exact (H eq_refl eq_refl).
Defined.

(** *** Every path of the views *)

Lemma get_patients_cases (cv : conversions) (w : world) :
  PatientApi.get_patients cv w =
    if up w then
      match patients w with
      | Some t =>
          (Val (Json 200 (JArr (map patient_json (rows t)))),
           mkWorld true (Some t) (appointments w) None []
             (trace w ++ [EvConnect; EvExecute SelectPatients; EvExit;
                          EvJsonify]))
      | None =>
          (Raise ProgrammingError,
           mkWorld true None (appointments w) None []
             (trace w ++ [EvConnect; EvExecute SelectPatients; EvExit]))
      end
    else (Raise OperationalError, log EvRefused w).
Proof.
  destruct (up w) eqn:Hup.
  - destruct (patients w) as [t|] eqn:Ht.
    + exact (get_patients_run cv w t Hup Ht).
    + destruct w as [u p a i c tr]. simpl in *. subst.
      unfold PatientApi.get_patients. run_view.
      simpl. rewrite <- !app_assoc. reflexivity.
  - exact (get_patients_refused cv w Hup).
Qed.

Lemma get_appointments_cases (cv : conversions) (w : world) :
  AppointmentApi.get_appointments cv w =
    if up w then
      match appointments w with
      | Some t =>
          (Val (Json 200 (JArr (map appointment_json (rows t)))),
           mkWorld true (patients w) (Some t) None []
             (trace w ++ [EvConnect; EvExecute SelectAppointments; EvExit;
                          EvJsonify]))
      | None =>
          (Raise ProgrammingError,
           mkWorld true (patients w) None None []
             (trace w ++ [EvConnect; EvExecute SelectAppointments; EvExit]))
      end
    else (Raise OperationalError, log EvRefused w).
Proof.
  destruct (up w) eqn:Hup.
  - destruct (appointments w) as [t|] eqn:Ht.
    + exact (get_appointments_run cv w t Hup Ht).
    + destruct w as [u p a i c tr]. simpl in *. subst.
      unfold AppointmentApi.get_appointments. run_view.
      simpl. rewrite <- !app_assoc. reflexivity.
  - exact (get_appointments_refused cv w Hup).
Qed.

Lemma add_patient_cases (cv : conversions) (req : request) (w : world) :
  PatientApi.add_patient cv req w =
    match json_body req with
    | JObj fields =>
        let name := field "name" (JObj fields) in
        let age := field "age" (JObj fields) in
        if up w then
          match patients w with
          | None =>
              (Raise ProgrammingError,
               mkWorld true None (appointments w) None []
                 (trace w ++ [EvConnect; EvExecute InsertPatient; EvExit]))
          | Some t =>
              match bind_varchar cv 255 name, bind_int cv age with
              | Some n, Some a =>
                  match insert p_id (fun i => mkPatient i n a) t with
                  | (t', Inserted i) =>
                      (Val (Json 200 (JObj [("id", JStr (decimal_string i));
                                            ("name", name); ("age", age)])),
                       mkWorld true (Some t') (appointments w) (Some i) []
                         (trace w ++ [EvConnect; EvExecute InsertPatient;
                                      EvCommit; EvExecute SelectIdentity;
                                      EvExit; EvJsonify]))
                  | (t', Overflow) =>
                      (Raise DataError,
                       mkWorld true (Some t') (appointments w) None []
                         (trace w ++ [EvConnect; EvExecute InsertPatient;
                                      EvExit]))
                  | (t', Duplicate) =>
                      (Raise IntegrityError,
                       mkWorld true (Some t') (appointments w) None []
                         (trace w ++ [EvConnect; EvExecute InsertPatient;
                                      EvExit]))
                  end
              | _, _ =>
                  (Raise DataError,
                   mkWorld true (Some t) (appointments w) None []
                     (trace w ++ [EvConnect; EvExecute InsertPatient;
                                  EvExit]))
              end
          end
        else (Raise OperationalError, log EvRefused w)
    | _ => (Raise AttributeError, w)
    end.
Proof.
  destruct w as [u p a i c tr], req as [m pa body].
  unfold PatientApi.add_patient. simpl json_body.
  destruct body; try (unfold get; run_view; reflexivity).
  rewrite !get_object. cbv zeta.
  generalize (field "name" (JObj fields)) (field "age" (JObj fields)).
  intros name age. run_view.
  destruct u; [|reflexivity].
  destruct p as [t|]; [|simpl; rewrite <- !app_assoc; reflexivity].
  destruct (bind_varchar cv 255 name) as [n|];
    [|simpl; rewrite <- !app_assoc; reflexivity].
  destruct (bind_int cv age) as [g|];
    [|simpl; rewrite <- !app_assoc; reflexivity].
  destruct (insert _ _ t) as [t' [j| |]];
    simpl; rewrite <- !app_assoc; reflexivity.
Qed.

Lemma add_appointment_cases (cv : conversions) (req : request) (w : world) :
  AppointmentApi.add_appointment cv req w =
    match json_body req with
    | JObj fields =>
        let patient_id := field "patient_id" (JObj fields) in
        let doctor := field "doctor" (JObj fields) in
        let date := field "date" (JObj fields) in
        let time := field "time" (JObj fields) in
        if up w then
          match appointments w with
          | None =>
              (Raise ProgrammingError,
               mkWorld true (patients w) None None []
                 (trace w ++ [EvConnect; EvExecute InsertAppointment;
                              EvExit]))
          | Some t =>
              match bind_int cv patient_id, bind_varchar cv 255 doctor,
                    bind_date cv date, bind_time cv time with
              | Some p, Some d, Some dt, Some tm =>
                  match insert a_id (fun i => mkAppointment i p d dt tm) t with
                  | (t', Inserted i) =>
                      (Val (Json 200 (JObj [("id", JStr (decimal_string i));
                                            ("patient_id", patient_id);
                                            ("doctor", doctor);
                                            ("date", date);
                                            ("time", time)])),
                       mkWorld true (patients w) (Some t') (Some i) []
                         (trace w ++ [EvConnect; EvExecute InsertAppointment;
                                      EvCommit; EvExecute SelectIdentity;
                                      EvExit; EvJsonify]))
                  | (t', Overflow) =>
                      (Raise DataError,
                       mkWorld true (patients w) (Some t') None []
                         (trace w ++ [EvConnect; EvExecute InsertAppointment;
                                      EvExit]))
                  | (t', Duplicate) =>
                      (Raise IntegrityError,
                       mkWorld true (patients w) (Some t') None []
                         (trace w ++ [EvConnect; EvExecute InsertAppointment;
                                      EvExit]))
                  end
              | _, _, _, _ =>
                  (Raise DataError,
                   mkWorld true (patients w) (Some t) None []
                     (trace w ++ [EvConnect; EvExecute InsertAppointment;
                                  EvExit]))
              end
          end
        else (Raise OperationalError, log EvRefused w)
    | _ => (Raise AttributeError, w)
    end.
Proof.
  destruct w as [u p a i c tr], req as [m pa body].
  unfold AppointmentApi.add_appointment. simpl json_body.
  destruct body; try (unfold get; run_view; reflexivity).
  rewrite !get_object. cbv zeta.
  generalize (field "patient_id" (JObj fields)) (field "doctor" (JObj fields))
             (field "date" (JObj fields)) (field "time" (JObj fields)).
  intros patient_id doctor date time. run_view.
  destruct u; [|reflexivity].
  destruct a as [t|]; [|simpl; rewrite <- !app_assoc; reflexivity].
  destruct (bind_int cv patient_id) as [q|];
    [|simpl; rewrite <- !app_assoc; reflexivity].
  destruct (bind_varchar cv 255 doctor) as [d|];
    [|simpl; rewrite <- !app_assoc; reflexivity].
  destruct (bind_date cv date) as [dt|];
    [|simpl; rewrite <- !app_assoc; reflexivity].
  destruct (bind_time cv time) as [tm|];
    [|simpl; rewrite <- !app_assoc; reflexivity].
  destruct (insert _ _ t) as [t' [j| |]];
    simpl; rewrite <- !app_assoc; reflexivity.
Qed.

(** *** Listing *)

(** X3.  A list view fails in exactly two situations: the database cannot
    be reached (the driver's OperationalError) or the table does not exist
    (ProgrammingError); in every other world it succeeds with status 200.
    It never ends in an IndexError on a row. *)
Theorem list_view_fails_exactly_when (cv : conversions) (w : world) :
  raised (fst (PatientApi.get_patients cv w)) =
    (if up w
     then match patients w with
          | Some _ => None
          | None => Some ProgrammingError
          end
     else Some OperationalError) /\
  raised (fst (AppointmentApi.get_appointments cv w)) =
    (if up w
     then match appointments w with
          | Some _ => None
          | None => Some ProgrammingError
          end
     else Some OperationalError) /\
  status_of (fst (PatientApi.serve cv list_patients w)) =
    (if up w
     then match patients w with Some _ => 200 | None => 500 end
     else 500) /\
  status_of (fst (AppointmentApi.serve cv list_appointments w)) =
    (if up w
     then match appointments w with Some _ => 200 | None => 500 end
     else 500).
Proof.
  unfold list_patients, list_appointments, PatientApi.serve,
    AppointmentApi.serve, handle. simpl.
  rewrite (get_patients_cases cv w), (get_appointments_cases cv w).
  destruct (up w); simpl; [|repeat split].
  destruct (patients w), (appointments w); repeat split.
Qed.

Lemma new_events_log (w : world) (e : event) : new_events w (log e w) = [e].
Proof. apply new_events_app. reflexivity. Qed.

(** X4.  Listing only reads: whatever the world, GET /patients and
    GET /appointments leave both tables as they are, send no statement but
    their SELECT and never commit; and a listing repeated at once gives the
    same answer. *)
Theorem listing_is_read_only (cv : conversions) (w : world) (body : json) :
  (let run := PatientApi.serve cv (mkRequest GET "/patients" body) w in
   patients (snd run) = patients w /\
   appointments (snd run) = appointments w /\
   reads_only (new_events w (snd run)) = true /\
   fst (PatientApi.serve cv (mkRequest GET "/patients" body) (snd run)) =
     fst run) /\
  (let run := AppointmentApi.serve cv (mkRequest GET "/appointments" body) w in
   patients (snd run) = patients w /\
   appointments (snd run) = appointments w /\
   reads_only (new_events w (snd run)) = true /\
   fst (AppointmentApi.serve cv (mkRequest GET "/appointments" body)
          (snd run)) = fst run).
Proof.
  unfold PatientApi.serve, AppointmentApi.serve, handle. simpl.
  rewrite (get_patients_cases cv w), (get_appointments_cases cv w).
  destruct (up w) eqn:Hup.
  - destruct (patients w) as [t|] eqn:Hp, (appointments w) as [t'|] eqn:Ha;
      simpl;
      rewrite ?get_patients_cases, ?get_appointments_cases; simpl;
      repeat split;
      erewrite new_events_app by reflexivity; reflexivity.
  - simpl. rewrite get_patients_cases, get_appointments_cases. simpl.
    rewrite Hup. simpl. rewrite !new_events_log. repeat split.
Qed.

(** *** Each service keeps to its table *)

Lemma patient_views_frame (cv : conversions) (req : request) (w : world) :
  (appointments (snd (PatientApi.get_patients cv w)) = appointments w /\
   up (snd (PatientApi.get_patients cv w)) = up w) /\
  (appointments (snd (PatientApi.add_patient cv req w)) = appointments w /\
   up (snd (PatientApi.add_patient cv req w)) = up w).
Proof.
  rewrite get_patients_cases, add_patient_cases. split.
  - destruct (up w) eqn:Hup; [|simpl; auto].
    destruct (patients w); simpl; auto.
  - destruct (json_body req); try (split; reflexivity). cbv zeta.
    destruct (up w) eqn:Hup; [|simpl; auto].
    destruct (patients w) as [t|]; [|simpl; auto].
    destruct (bind_varchar cv 255 _); [|simpl; auto].
    destruct (bind_int cv _); [|simpl; auto].
    destruct (insert _ _ t) as [t' [j| |]]; simpl; auto.
Qed.

Lemma appointment_views_frame (cv : conversions) (req : request) (w : world) :
  (patients (snd (AppointmentApi.get_appointments cv w)) = patients w /\
   up (snd (AppointmentApi.get_appointments cv w)) = up w) /\
  (patients (snd (AppointmentApi.add_appointment cv req w)) = patients w /\
   up (snd (AppointmentApi.add_appointment cv req w)) = up w) /\
  (patients (snd (AppointmentApi.health w)) = patients w /\
   up (snd (AppointmentApi.health w)) = up w).
Proof.
  rewrite get_appointments_cases, add_appointment_cases.
  split; [|split].
  - destruct (up w) eqn:Hup; [|simpl; auto].
    destruct (appointments w); simpl; auto.
  - destruct (json_body req); try (split; reflexivity). cbv zeta.
    destruct (up w) eqn:Hup; [|simpl; auto].
    destruct (appointments w) as [t|]; [|simpl; auto].
    destruct (bind_int cv _); [|simpl; auto].
    destruct (bind_varchar cv 255 _); [|simpl; auto].
    destruct (bind_date cv _); [|simpl; auto].
    destruct (bind_time cv _); [|simpl; auto].
    destruct (insert _ _ t) as [t' [j| |]]; simpl; auto.
  - split; reflexivity.
Qed.

Lemma handle_snd {A} (f : world -> A) (view : M response) (w : world) :
  f (snd (handle view w)) = f (snd (view w)).
Proof. unfold handle. destruct (view w) as [[r|e] w']; reflexivity. Qed.

(** X5.  No request to the patient service changes the appointments table,
    and no request to the appointment service changes the patients table;
    neither service changes whether the database can be reached. *)
Theorem services_keep_to_their_table (cv : conversions) (req : request)
        (w : world) :
  appointments (snd (PatientApi.serve cv req w)) = appointments w /\
  patients (snd (AppointmentApi.serve cv req w)) = patients w /\
  up (snd (PatientApi.serve cv req w)) = up w /\
  up (snd (AppointmentApi.serve cv req w)) = up w.
Proof.
  destruct (patient_views_frame cv req w) as [[P1 P2] [P3 P4]].
  destruct (appointment_views_frame cv req w) as [[A1 A2] [[A3 A4] [A5 A6]]].
  unfold PatientApi.serve, AppointmentApi.serve.
  destruct (String.eqb (path req) "/patients"),
    (String.eqb (path req) "/appointments"),
    (String.eqb (path req) "/health"), (method req);
    rewrite ?(handle_snd appointments), ?(handle_snd patients),
      ?(handle_snd up);
    repeat split; assumption.
Qed.

(** *** Creation, on every path *)

Lemma insert_rows {R} (key : R -> Z) (mk : Z -> R) (t t' : table R)
      (o : inserted) :
  insert key mk t = (t', o) ->
  match o with
  | Inserted i => i = next_id t /\ rows t' = rows t ++ [mk i]
  | _ => rows t' = rows t
  end.
Proof.
  unfold insert. destruct (negb (int_range (next_id t)));
    [|destruct (existsb _ (rows t))]; intros H; injection H as <- <-.
  - reflexivity.
  - reflexivity.
  - split; reflexivity.
Qed.

(** X6.  A POST either adds exactly one row at the end of its table and
    answers 200 with the id of that row, written as the string of its
    numeral, or adds no row at all: whenever the answer is not 200 (body
    that is no object, database unreachable, table missing, value refused
    by a column, identity column exhausted) the rows of the table are what
    they were. *)
Theorem create_adds_one_row_or_none (cv : conversions) (body : json)
        (w : world) :
  (let run := PatientApi.serve cv (mkRequest POST "/patients" body) w in
   (status_of (fst run) = 200 ->
    exists row,
      rows_of (patients (snd run)) = rows_of (patients w) ++ [row] /\
      field "id" (body_of (fst run)) = JStr (decimal_string (p_id row))) /\
   (status_of (fst run) <> 200 ->
    rows_of (patients (snd run)) = rows_of (patients w))) /\
  (let run :=
     AppointmentApi.serve cv (mkRequest POST "/appointments" body) w in
   (status_of (fst run) = 200 ->
    exists row,
      rows_of (appointments (snd run)) = rows_of (appointments w) ++ [row] /\
      field "id" (body_of (fst run)) = JStr (decimal_string (a_id row))) /\
   (status_of (fst run) <> 200 ->
    rows_of (appointments (snd run)) = rows_of (appointments w))).
Proof.
  unfold PatientApi.serve, AppointmentApi.serve, handle. simpl.
  rewrite add_patient_cases, add_appointment_cases. simpl json_body.
  split.
  - destruct body; try (simpl; split; [discriminate | reflexivity]).
    cbv zeta. destruct (up w); [|simpl; split; [discriminate | reflexivity]].
    destruct (patients w) as [t|];
      [|simpl; split; [discriminate | reflexivity]].
    destruct (bind_varchar cv 255 _) as [n|];
      [|simpl; split; [discriminate | reflexivity]].
    destruct (bind_int cv _) as [g|];
      [|simpl; split; [discriminate | reflexivity]].
    destruct (insert _ _ t) as [t' [j| |]] eqn:E;
      pose proof (insert_rows _ _ _ _ _ E) as Hr; simpl.
    + destruct Hr as [_ Hr]. split; [|intros H; contradiction H; reflexivity].
      intros _. exists (mkPatient j n g). split; [exact Hr | reflexivity].
    + split; [discriminate | intros _; exact Hr].
    + split; [discriminate | intros _; exact Hr].
  - destruct body; try (simpl; split; [discriminate | reflexivity]).
    cbv zeta. destruct (up w); [|simpl; split; [discriminate | reflexivity]].
    destruct (appointments w) as [t|];
      [|simpl; split; [discriminate | reflexivity]].
    destruct (bind_int cv _) as [q|];
      [|simpl; split; [discriminate | reflexivity]].
    destruct (bind_varchar cv 255 _) as [d|];
      [|simpl; split; [discriminate | reflexivity]].
    destruct (bind_date cv _) as [dt|];
      [|simpl; split; [discriminate | reflexivity]].
    destruct (bind_time cv _) as [tm|];
      [|simpl; split; [discriminate | reflexivity]].
    destruct (insert _ _ t) as [t' [j| |]] eqn:E;
      pose proof (insert_rows _ _ _ _ _ E) as Hr; simpl.
    + destruct Hr as [_ Hr]. split; [|intros H; contradiction H; reflexivity].
      intros _. exists (mkAppointment j q d dt tm).
      split; [exact Hr | reflexivity].
    + split; [discriminate | intros _; exact Hr].
    + split; [discriminate | intros _; exact Hr].
Qed.

Lemma create_adds_one_row_or_none_witness :
  rows_of (patients (snd (PatientApi.serve strict age_out_of_range
                            fresh_world))) =
    rows_of (patients fresh_world).
Proof.
  destruct (create_adds_one_row_or_none strict (json_body age_out_of_range)
              fresh_world) as [[_ H] _].
  apply H. discriminate.
Defined.

(** X7.  A create view whose request body is not a JSON object (an array,
    a string, a number, null) fails on its first [.get], before any
    connection is attempted: the caller gets 500 and the world, trace
    included, is unchanged, also when the database is reachable. *)
Theorem create_rejects_non_object_body (cv : conversions) (req : request)
        (w : world) :
  is_object (json_body req) = false ->
  PatientApi.add_patient cv req w = (Raise AttributeError, w) /\
  AppointmentApi.add_appointment cv req w = (Raise AttributeError, w) /\
  handle (PatientApi.add_patient cv req) w = (Failure 500, w) /\
  handle (AppointmentApi.add_appointment cv req) w = (Failure 500, w).
Proof.
  intros H. unfold handle.
  rewrite add_patient_cases, add_appointment_cases.
  destruct (json_body req); try discriminate H; repeat split.
Qed.

Lemma create_rejects_non_object_body_witness :
  PatientApi.serve strict
    (mkRequest POST "/patients" (JArr [JStr "Jane Doe"; JInt 34]))
    fresh_world = (Failure 500, fresh_world).
Proof.
  destruct (create_rejects_non_object_body strict
              (mkRequest POST "/patients" (JArr [JStr "Jane Doe"; JInt 34]))
              fresh_world eq_refl) as [_ [_ [H _]]].
  exact H.
Defined.

(** X8.  A create view reads nothing of the request but its own fields:
    two object bodies that agree on name and age (for appointments: on
    patient_id, doctor, date and time) give the same answer and the same
    world.  So further keys are ignored, and a field given as null is the
    same as a field left out. *)
Theorem create_reads_only_its_fields (cv : conversions) (req1 req2 : request)
        (f1 f2 : list (string * json)) (w : world) :
  json_body req1 = JObj f1 -> json_body req2 = JObj f2 ->
  (field "name" (JObj f1) = field "name" (JObj f2) ->
   field "age" (JObj f1) = field "age" (JObj f2) ->
   PatientApi.add_patient cv req1 w = PatientApi.add_patient cv req2 w) /\
  (field "patient_id" (JObj f1) = field "patient_id" (JObj f2) ->
   field "doctor" (JObj f1) = field "doctor" (JObj f2) ->
   field "date" (JObj f1) = field "date" (JObj f2) ->
   field "time" (JObj f1) = field "time" (JObj f2) ->
   AppointmentApi.add_appointment cv req1 w =
     AppointmentApi.add_appointment cv req2 w).
Proof.
  intros H1 H2. split.
  - intros Hn Ha. rewrite !add_patient_cases, H1, H2. cbv zeta.
    rewrite Hn, Ha. reflexivity.
  - intros Hp Hd Hdt Htm. rewrite !add_appointment_cases, H1, H2. cbv zeta.
    rewrite Hp, Hd, Hdt, Htm. reflexivity.
Qed.

Lemma create_reads_only_its_fields_witness :
  PatientApi.add_patient strict
    (mkRequest POST "/patients"
       (JObj [("name", JStr "Jane Doe"); ("age", JNull);
              ("phone", JStr "555-0100")]))
    fresh_world =
  PatientApi.add_patient strict
    (mkRequest POST "/patients" (JObj [("name", JStr "Jane Doe")]))
    fresh_world.
Proof.
  destruct (create_reads_only_its_fields strict
              (mkRequest POST "/patients"
                 (JObj [("name", JStr "Jane Doe"); ("age", JNull);
                        ("phone", JStr "555-0100")]))
              (mkRequest POST "/patients" (JObj [("name", JStr "Jane Doe")]))
              _ _ fresh_world eq_refl eq_refl) as [H _].
  exact (H eq_refl eq_refl).
Defined.

(** *** Identity values over the life of the services *)

Lemma ascending_snoc (l : list Z) (i : Z) :
  ascending l = true -> forallb (fun x => x <? i) l = true ->
  ascending (l ++ [i]) = true.
Proof.
  induction l as [|x l IH]; simpl; intros Ha Hb.
  - reflexivity.
  - apply andb_true_iff in Ha. destruct Ha as [Hx Hl].
    apply andb_true_iff in Hb. destruct Hb as [Hxi Hli].
    rewrite forallb_app, Hx, (IH Hl Hli). simpl. rewrite Hxi. reflexivity.
Qed.

Lemma ascending_NoDup (l : list Z) : ascending l = true -> NoDup l.
Proof.
  induction l as [|x l IH]; simpl; intros H.
  - constructor.
  - apply andb_true_iff in H. destruct H as [Hx Hl].
    constructor; [|exact (IH Hl)].
    intros Hin. rewrite forallb_forall in Hx.
    specialize (Hx x Hin). apply Z.ltb_lt in Hx. lia.
Qed.

Lemma ascending_after_insert {R} (key : R -> Z) (mk : Z -> R) (t : table R) :
  (forall i, key (mk i) = i) ->
  identity_ok key t = true ->
  ascending (map key (rows t)) = true ->
  ascending (map key (rows t ++ [mk (next_id t)])) = true.
Proof.
  intros Hk Hok Ha. rewrite map_app. simpl. rewrite Hk.
  apply ascending_snoc; [exact Ha|].
  rewrite forallb_forall. intros x Hx. apply in_map_iff in Hx.
  destruct Hx as [r [<- Hr]]. apply Z.ltb_lt.
  exact (identity_ok_lt key t r Hok Hr).
Qed.

Lemma patient_request_keeps_ascending (cv : conversions) (req : request)
      (w : world) :
  tables_ok w -> ids_ascending w ->
  ids_ascending (snd (PatientApi.serve cv req w)).
Proof.
  intros [Hp _] [Ap Aa]. unfold ids_ascending.
  destruct (patient_views_frame cv req w) as [[F1 _] [F2 _]].
  unfold PatientApi.serve.
  destruct (String.eqb (path req) "/patients"); [|split; assumption].
  destruct (method req); try (split; assumption);
    rewrite (handle_snd patients), (handle_snd appointments).
  - rewrite F1. split; [|exact Aa]. rewrite get_patients_cases.
    destruct (up w); [|exact Ap]. destruct (patients w); exact Ap.
  - rewrite F2. split; [|exact Aa]. rewrite add_patient_cases.
    destruct (json_body req); try exact Ap. cbv zeta.
    destruct (up w); [|exact Ap].
    destruct (patients w) as [t|]; [|exact Ap].
    destruct (bind_varchar cv 255 _) as [n|]; [|exact Ap].
    destruct (bind_int cv _) as [g|]; [|exact Ap].
    rewrite (insert_under_invariant p_id _ t Hp).
    destruct (int_range (next_id t)); simpl; [|exact Ap].
    apply (ascending_after_insert p_id (fun j => mkPatient j n g) t);
      [reflexivity | exact Hp | exact Ap].
Qed.

Lemma appointment_request_keeps_ascending (cv : conversions) (req : request)
      (w : world) :
  tables_ok w -> ids_ascending w ->
  ids_ascending (snd (AppointmentApi.serve cv req w)).
Proof.
  intros [_ Ha] [Ap Aa]. unfold ids_ascending.
  destruct (appointment_views_frame cv req w) as [[F1 _] [[F2 _] [F3 _]]].
  unfold AppointmentApi.serve.
  destruct (String.eqb (path req) "/appointments").
  - destruct (method req); try (split; assumption);
      rewrite (handle_snd patients), (handle_snd appointments).
    + rewrite F1. split; [exact Ap|]. rewrite get_appointments_cases.
      destruct (up w); [|exact Aa]. destruct (appointments w); exact Aa.
    + rewrite F2. split; [exact Ap|]. rewrite add_appointment_cases.
      destruct (json_body req); try exact Aa. cbv zeta.
      destruct (up w); [|exact Aa].
      destruct (appointments w) as [t|]; [|exact Aa].
      destruct (bind_int cv _) as [q|]; [|exact Aa].
      destruct (bind_varchar cv 255 _) as [d|]; [|exact Aa].
      destruct (bind_date cv _) as [dt|]; [|exact Aa].
      destruct (bind_time cv _) as [tm|]; [|exact Aa].
      rewrite (insert_under_invariant a_id _ t Ha).
      destruct (int_range (next_id t)); simpl; [|exact Aa].
      apply (ascending_after_insert a_id
               (fun j => mkAppointment j q d dt tm) t);
        [reflexivity | exact Ha | exact Aa].
  - destruct (String.eqb (path req) "/health"); [|split; assumption].
    destruct (method req); split; assumption.
Qed.

Lemma step_keeps_ascending (cv : conversions) (w w' : world) :
  step cv w w' -> tables_ok w -> ids_ascending w -> ids_ascending w'.
Proof.
  intros S Hok [Ap Aa]. destruct S.
  - destruct (startup_effect cv w) as [[P [A _]] _].
    unfold ids_ascending. rewrite P, A. split; [|exact Aa].
    destruct (up w); [|exact Ap]. destruct (patients w); [exact Ap|reflexivity].
  - destruct (startup_effect cv w) as [_ [A [P _]]].
    unfold ids_ascending. rewrite P, A. split; [exact Ap|].
    destruct (up w); [|exact Aa].
    destruct (appointments w); [exact Aa|reflexivity].
  - apply patient_request_keeps_ascending; [exact Hok | split; assumption].
  - apply appointment_request_keeps_ascending; [exact Hok | split; assumption].
  - split; assumption.
Qed.

(** X10.  In every world the two services can reach from a database without
    their tables (start-ups, requests of any kind, outages, in any order),
    each table holds its rows by strictly increasing id: ids are never
    reused, no two rows share one, and a listing is in the order of
    creation. *)
Theorem reachable_ids_ascending (cv : conversions) (w : world) :
  reachable cv w ->
  ids_ascending w /\
  NoDup (map p_id (rows_of (patients w))) /\
  NoDup (map a_id (rows_of (appointments w))).
Proof.
  intros H.
  assert (A : ids_ascending w).
  { induction H as [u tr | w w' Hr IH S].
    - split; reflexivity.
    - exact (step_keeps_ascending cv w w' S (reachable_tables_ok cv w Hr) IH). }
  split; [exact A|]. destruct A as [Ap Aa].
  split; apply ascending_NoDup; assumption.
Qed.

Lemma reachable_ids_ascending_witness :
  NoDup (map p_id
           (rows_of (patients
                       (snd (PatientApi.serve strict jane_doe
                               (snd (PatientApi.serve strict jane_doe
                                       (snd (PatientApi.startup strict
                                               (no_tables true)))))))))).
Proof.
  apply (reachable_ids_ascending strict).
  apply reachable_step with
    (w := snd (PatientApi.serve strict jane_doe
                 (snd (PatientApi.startup strict (no_tables true)))));
    [|apply step_patient_request].
  apply reachable_step with
    (w := snd (PatientApi.startup strict (no_tables true)));
    [|apply step_patient_request].
  apply reachable_step with (w := no_tables true);
    [|apply step_patient_startup].
  apply reachable_initial.
Defined.

(** X11.  Two patients created one after the other, while the identity
    column has two values left, get consecutive ids, each answered as the
    string of its numeral, and the listing that follows shows the records
    that were there, then the first patient, then the second. *)
Theorem two_creates_in_order (cv : conversions) (w : world)
        (t : table patient_row) (f1 f2 : list (string * json))
        (n1 n2 : option string) (a1 a2 : option Z) (body : json) :
  up w = true -> patients w = Some t -> identity_ok p_id t = true ->
  int_range (next_id t) = true -> int_range (next_id t + 1) = true ->
  bind_varchar cv 255 (field "name" (JObj f1)) = Some n1 ->
  bind_int cv (field "age" (JObj f1)) = Some a1 ->
  bind_varchar cv 255 (field "name" (JObj f2)) = Some n2 ->
  bind_int cv (field "age" (JObj f2)) = Some a2 ->
  let first := PatientApi.serve cv (mkRequest POST "/patients" (JObj f1)) w in
  let second :=
    PatientApi.serve cv (mkRequest POST "/patients" (JObj f2)) (snd first) in
  field "id" (body_of (fst first)) = JStr (decimal_string (next_id t)) /\
  field "id" (body_of (fst second)) =
    JStr (decimal_string (next_id t + 1)) /\
  fst (PatientApi.serve cv (mkRequest GET "/patients" body) (snd second)) =
    Json 200 (JArr (map patient_json (rows t) ++
                    [patient_json (mkPatient (next_id t) n1 a1);
                     patient_json (mkPatient (next_id t + 1) n2 a2)])).
Proof.
  intros Hup Ht Hok Hr1 Hr2 Hn1 Ha1 Hn2 Ha2 first second.
  pose proof (serve_add_patient cv w t f1 n1 a1 Hup Ht Hok Hr1 Hn1 Ha1) as H1.
  fold first in H1.
  assert (Hok1 : identity_ok p_id
                   (mkTable (rows t ++ [mkPatient (next_id t) n1 a1])
                            (next_id t + 1)) = true)
    by (apply (identity_ok_after_insert p_id (fun j => mkPatient j n1 a1) t);
        [reflexivity | exact Hok]).
  assert (H2 := serve_add_patient cv (snd first)
                  (mkTable (rows t ++ [mkPatient (next_id t) n1 a1])
                           (next_id t + 1)) f2 n2 a2).
  rewrite H1 in H2. specialize (H2 eq_refl eq_refl Hok1 Hr2 Hn2 Ha2).
  simpl in H2. unfold second. rewrite H1. simpl snd. rewrite H2.
  split; [reflexivity|]. split; [reflexivity|]. simpl snd.
  erewrite serve_get_patients; [|reflexivity|reflexivity]. simpl rows.
  rewrite !map_app, <- app_assoc. reflexivity.
Qed.

Lemma two_creates_in_order_witness :
  fst (PatientApi.serve strict list_patients
         (snd (PatientApi.serve strict (empty_object POST "/patients")
                 (snd (PatientApi.serve strict jane_doe fresh_world))))) =
    Json 200 (JArr [JObj [("id", JInt 1); ("name", JStr "Jane Doe");
                          ("age", JInt 34)];
                    JObj [("id", JInt 2); ("name", JNull); ("age", JNull)]]).
Proof.
  destruct (two_creates_in_order strict fresh_world empty_table
              [("name", JStr "Jane Doe"); ("age", JInt 34)] []
              (Some "Jane Doe") None (Some 34) None JNull
              eq_refl eq_refl eq_refl eq_refl eq_refl eq_refl eq_refl
              eq_refl eq_refl)
    as [_ [_ H]].
  exact H.
Defined.

(** *** Dates and times through creation and listing *)

Lemma digit_value_digit (c : ascii) (x : Z) :
  digit_value c = Some x -> 0 <= x <= 9 /\ digit x = c.
Proof.
  destruct c as [b0 b1 b2 b3 b4 b5 b6 b7].
  destruct b0, b1, b2, b3, b4, b5, b6, b7; vm_compute; intros H;
    try discriminate H; injection H as <-; split;
    try reflexivity; split; discriminate.
Qed.

Lemma number2_pad2 (a b : ascii) (n : Z) :
  number2 a b = Some n -> 0 <= n <= 99 /\ pad2 n = [a; b].
Proof.
  unfold number2.
  destruct (digit_value a) as [x|] eqn:Ea; [|discriminate].
  destruct (digit_value b) as [y|] eqn:Eb; [|discriminate].
  intros H. assert (E : n = 10 * x + y) by congruence. subst n. clear H.
  destruct (digit_value_digit a x Ea) as [Hx <-].
  destruct (digit_value_digit b y Eb) as [Hy <-].
  split; [lia|]. unfold pad2.
  assert (E1 : (10 * x + y) / 10 mod 10 = x)
    by (Z.to_euclidean_division_equations; lia).
  assert (E2 : (10 * x + y) mod 10 = y)
    by (Z.to_euclidean_division_equations; lia).
  rewrite E1, E2. reflexivity.
Qed.

Lemma number4_pad4 (a b c d : ascii) (n : Z) :
  number4 a b c d = Some n -> pad4 n = [a; b; c; d].
Proof.
  unfold number4.
  destruct (number2 a b) as [p|] eqn:Ep; [|discriminate].
  destruct (number2 c d) as [q|] eqn:Eq; [|discriminate].
  intros H. assert (E : n = 100 * p + q) by congruence. subst n. clear H.
  destruct (number2_pad2 a b p Ep) as [Hp Pp].
  destruct (number2_pad2 c d q Eq) as [Hq Pq].
  unfold pad2 in Pp, Pq. unfold pad4.
  assert (E1 : (100 * p + q) / 1000 mod 10 = p / 10 mod 10)
    by (Z.to_euclidean_division_equations; lia).
  assert (E2 : (100 * p + q) / 100 mod 10 = p mod 10)
    by (Z.to_euclidean_division_equations; lia).
  assert (E3 : (100 * p + q) / 10 mod 10 = q / 10 mod 10)
    by (Z.to_euclidean_division_equations; lia).
  assert (E4 : (100 * p + q) mod 10 = q mod 10)
    by (Z.to_euclidean_division_equations; lia).
  rewrite E1, E2, E3, E4.
  injection Pp as -> ->. injection Pq as -> ->. reflexivity.
Qed.

(** Style 120 prints a date read from [YYYY-MM-DD] as it was written. *)
Lemma iso_date_round_trip (s : string) (d : date) :
  iso_date s = Some d -> convert_date_120 d = s.
Proof.
  unfold iso_date. intros H.
  rewrite <- (string_of_list_ascii_of_string s).
  destruct (list_ascii_of_string s)
    as [|y1 [|y2 [|y3 [|y4 [|s1 [|m1 [|m2 [|s2 [|d1 [|d2 [|x l]]]]]]]]]]];
    try discriminate H.
  destruct (Ascii.eqb s1 "-") eqn:E1; [|discriminate H].
  destruct (Ascii.eqb s2 "-") eqn:E2; [|discriminate H].
  apply Ascii.eqb_eq in E1, E2. subst s1 s2. simpl in H.
  destruct (number4 y1 y2 y3 y4) as [y|] eqn:Ny; [|discriminate H].
  destruct (number2 m1 m2) as [m|] eqn:Nm; [|discriminate H].
  destruct (number2 d1 d2) as [dd|] eqn:Nd; [|discriminate H].
  injection H as <-. unfold convert_date_120. simpl year. simpl month.
  simpl day.
  rewrite (number4_pad4 _ _ _ _ _ Ny).
  destruct (number2_pad2 _ _ _ Nm) as [_ ->].
  destruct (number2_pad2 _ _ _ Nd) as [_ ->].
  reflexivity.
Qed.

(** Style 108 cut to five characters prints a time read from [hh:mm] or
    [hh:mm:ss] as its first five characters. *)
Lemma iso_time_round_trip (s : string) (t : time) :
  iso_time s = Some t -> convert_time_108 t = prefix 5 s.
Proof.
  unfold iso_time, prefix. intros H.
  destruct (list_ascii_of_string s)
    as [|h1 [|h2 [|s1 [|m1 [|m2 [|s2 [|c1 [|c2 [|x l]]]]]]]]];
    try discriminate H.
  - destruct (Ascii.eqb s1 ":") eqn:E1; [|discriminate H].
    apply Ascii.eqb_eq in E1. subst s1.
    destruct (number2 h1 h2) as [h|] eqn:Nh; [|discriminate H].
    destruct (number2 m1 m2) as [m|] eqn:Nm; [|discriminate H].
    injection H as <-. unfold convert_time_108. simpl hour. simpl minute.
    destruct (number2_pad2 _ _ _ Nh) as [_ ->].
    destruct (number2_pad2 _ _ _ Nm) as [_ ->].
    reflexivity.
  - destruct (Ascii.eqb s1 ":") eqn:E1; [|discriminate H].
    destruct (Ascii.eqb s2 ":") eqn:E2; [|discriminate H].
    apply Ascii.eqb_eq in E1, E2. subst s1 s2. simpl in H.
    destruct (number2 h1 h2) as [h|] eqn:Nh; [|discriminate H].
    destruct (number2 m1 m2) as [m|] eqn:Nm; [|discriminate H].
    destruct (number2 c1 c2) as [c|] eqn:Nc; [|discriminate H].
    injection H as <-. unfold convert_time_108. simpl hour. simpl minute.
    destruct (number2_pad2 _ _ _ Nh) as [_ ->].
    destruct (number2_pad2 _ _ _ Nm) as [_ ->].
    reflexivity.
Qed.

(** X12.  An appointment created with a date written [YYYY-MM-DD] that is a
    date of the calendar, and a time written [hh:mm] or [hh:mm:ss] that is a
    time of the day, while the identity column has a value left, is listed
    afterwards, as the last record, with the very date string of the request
    and with the first five characters of its time string. *)
Theorem created_appointment_is_listed_normalised (cv : conversions)
        (w : world) (t : table appointment_row)
        (fields : list (string * json)) (p : option Z) (doc : option string)
        (ds ts : string) (d : date) (tm : time) (body : json) :
  up w = true -> appointments w = Some t -> identity_ok a_id t = true ->
  int_range (next_id t) = true ->
  bind_int cv (field "patient_id" (JObj fields)) = Some p ->
  bind_varchar cv 255 (field "doctor" (JObj fields)) = Some doc ->
  lookup "date" fields = Some (JStr ds) ->
  lookup "time" fields = Some (JStr ts) ->
  iso_date ds = Some d -> valid_date d = true ->
  iso_time ts = Some tm -> valid_time tm = true ->
  let created :=
    AppointmentApi.serve cv (mkRequest POST "/appointments" (JObj fields)) w in
  status_of (fst created) = 200 /\
  fst (AppointmentApi.serve cv (mkRequest GET "/appointments" body)
         (snd created)) =
    Json 200
      (JArr (map appointment_json (rows t) ++
             [JObj [("id", JInt (next_id t));
                    ("patient_id", json_of_int p);
                    ("doctor", json_of_text doc);
                    ("date", JStr ds);
                    ("time", JStr (prefix 5 ts))]])).
Proof.
  intros Hup Ht Hok Hid Hp Hdoc Hds Hts Hd Vd Htm Vtm created.
  assert (Bd : bind_date cv (field "date" (JObj fields)) = Some (Some d)).
  { rewrite (field_lookup _ _ _ Hds). simpl. rewrite Hd. simpl.
    rewrite Vd. reflexivity. }
  assert (Bt : bind_time cv (field "time" (JObj fields)) = Some (Some tm)).
  { rewrite (field_lookup _ _ _ Hts). simpl. rewrite Htm. simpl.
    rewrite Vtm. reflexivity. }
  pose proof (serve_add_appointment cv w t fields p doc (Some d) (Some tm)
                Hup Ht Hok Hid Hp Hdoc Bd Bt) as Hc.
  fold created in Hc. rewrite Hc. split; [reflexivity|]. simpl snd.
  erewrite serve_get_appointments; [|reflexivity|reflexivity]. simpl rows.
  rewrite map_app. unfold appointment_json at 2. simpl.
  rewrite (iso_date_round_trip ds d Hd), (iso_time_round_trip ts tm Htm).
  reflexivity.
Qed.

Lemma created_appointment_is_listed_normalised_witness :
  fst (AppointmentApi.serve strict list_appointments
         (snd (AppointmentApi.serve strict dr_smith_seconds fresh_world))) =
    Json 200
      (JArr [JObj [("id", JInt 1); ("patient_id", JInt 1);
                   ("doctor", JStr "Dr. Smith");
                   ("date", JStr "2024-03-15");
                   ("time", JStr (prefix 5 "14:30:00"))]]).
Proof.
  destruct (created_appointment_is_listed_normalised strict fresh_world
              empty_table
              [("patient_id", JInt 1); ("doctor", JStr "Dr. Smith");
               ("date", JStr "2024-03-15"); ("time", JStr "14:30:00")]
              (Some 1) (Some "Dr. Smith") "2024-03-15" "14:30:00"
              (mkDate 2024 3 15) (mkTime 14 30 0) JNull
              eq_refl eq_refl eq_refl eq_refl eq_refl eq_refl eq_refl
              eq_refl eq_refl eq_refl eq_refl eq_refl) as [_ H].
  exact H.
Defined.

(** *** What the columns refuse *)

Lemma serve_add_patient_refused (cv : conversions) (w : world)
      (fields : list (string * json)) :
  bind_varchar cv 255 (field "name" (JObj fields)) = None \/
  bind_int cv (field "age" (JObj fields)) = None ->
  let run := PatientApi.serve cv (mkRequest POST "/patients" (JObj fields)) w in
  fst run = Failure 500 /\ patients (snd run) = patients w.
Proof.
  intros H. unfold PatientApi.serve, handle. simpl.
  rewrite add_patient_cases. simpl json_body. cbv zeta.
  destruct (up w); [|split; reflexivity].
  destruct (patients w) as [t|]; [|split; reflexivity].
  destruct H as [H | H]; rewrite H.
  - split; reflexivity.
  - destruct (bind_varchar cv 255 _); split; reflexivity.
Qed.

(** X13.  Whatever the implicit conversions of the driver, a patient whose
    name is a string with a character other than a blank past its 255th,
    or whose age is an integer outside the range of INT, is not created:
    the answer is 500 and the table is unchanged, in every world.  A name
    that passes the width by blanks only is taken, and stored cut to its
    first 255 characters. *)
Theorem patient_columns_bound_the_input (cv : conversions) (w : world)
        (fields : list (string * json)) :
  (forall s,
      lookup "name" fields = Some (JStr s) ->
      overlong 255 s = true ->
      let run :=
        PatientApi.serve cv (mkRequest POST "/patients" (JObj fields)) w in
      fst run = Failure 500 /\ patients (snd run) = patients w) /\
  (forall z,
      lookup "age" fields = Some (JInt z) ->
      z < -2147483648 \/ 2147483647 < z ->
      let run :=
        PatientApi.serve cv (mkRequest POST "/patients" (JObj fields)) w in
      fst run = Failure 500 /\ patients (snd run) = patients w) /\
  (forall s t a,
      lookup "name" fields = Some (JStr s) ->
      overlong 255 s = false ->
      up w = true -> patients w = Some t -> identity_ok p_id t = true ->
      int_range (next_id t) = true ->
      bind_int cv (field "age" (JObj fields)) = Some a ->
      let run :=
        PatientApi.serve cv (mkRequest POST "/patients" (JObj fields)) w in
      status_of (fst run) = 200 /\
      patients (snd run) =
        Some (mkTable
                (rows t ++ [mkPatient (next_id t) (Some (prefix 255 s)) a])
                (next_id t + 1))).
Proof.
  split; [|split].
  - intros s Hs Hlen. apply serve_add_patient_refused. left.
    rewrite (field_lookup _ _ _ Hs). simpl. unfold store_varchar.
    unfold overlong in Hlen. apply negb_true_iff in Hlen. rewrite Hlen.
    reflexivity.
  - intros z Hz Hr. apply serve_add_patient_refused. right.
    rewrite (field_lookup _ _ _ Hz). simpl. unfold int_range.
    destruct (Z.leb_spec (-2147483648) z), (Z.leb_spec z 2147483647);
      simpl; try reflexivity; lia.
  - intros s t a Hs Hlen Hup Ht Hok Hid Ha run. unfold run.
    assert (Hn : bind_varchar cv 255 (field "name" (JObj fields)) =
                 Some (Some (prefix 255 s))).
    { rewrite (field_lookup _ _ _ Hs). simpl. unfold store_varchar.
      unfold overlong in Hlen. apply negb_false_iff in Hlen. rewrite Hlen.
      reflexivity. }
    rewrite (serve_add_patient cv w t fields _ a Hup Ht Hok Hid Hn Ha).
    split; reflexivity.
Qed.

Lemma patient_columns_bound_the_input_witness :
  fst (PatientApi.serve strict
         (mkRequest POST "/patients" (JObj [("name", JStr (letters 256))]))
         fresh_world) = Failure 500 /\
  patients (snd (PatientApi.serve strict
                   (mkRequest POST "/patients"
                      (JObj [("name", JStr padded_name)]))
                   fresh_world)) =
    Some (mkTable [mkPatient 1 (Some (letters 255)) None] 2).
Proof.
  split.
  - destruct (patient_columns_bound_the_input strict fresh_world
                [("name", JStr (letters 256))]) as [H _].
    apply (H (letters 256) eq_refl). reflexivity.
  - destruct (patient_columns_bound_the_input strict fresh_world
                [("name", JStr padded_name)]) as [_ [_ H]].
    apply (H padded_name empty_table None eq_refl eq_refl eq_refl eq_refl
             eq_refl eq_refl eq_refl).
Defined.



(** *** Listing appointments *)

(** X15.  For every state of the appointments table, the listing answers
    200 with one object per row, in the order of the table: id, patient_id
    and doctor as stored (null for NULL), date and time through CONVERT.
    Nothing is filtered, nothing is cut, and an empty table gives the empty
    sequence. *)
Theorem list_appointments_returns_every_row (cv : conversions) (w : world)
        (t : table appointment_row) (body : json) :
  up w = true -> appointments w = Some t ->
  let answer :=
    fst (AppointmentApi.serve cv (mkRequest GET "/appointments" body) w) in
  exists items,
    answer = Json 200 (JArr items) /\
    List.length items = List.length (rows t) /\
    (forall (i : nat) (r : appointment_row),
        nth_error (rows t) i = Some r ->
        nth_error items i =
          Some (JObj [("id", JInt (a_id r));
                      ("patient_id", json_of_int (a_patient_id r));
                      ("doctor", json_of_text (a_doctor r));
                      ("date",
                       json_of_text (option_map convert_date_120 (a_date r)));
                      ("time",
                       json_of_text (option_map convert_time_108 (a_time r)))]))
    /\ (rows t = [] -> items = []).
Proof.
  intros Hup Ht answer. exists (map appointment_json (rows t)).
  split; [apply serve_get_appointments; assumption|].
  split; [apply length_map|]. split.
  - intros i r Hr. rewrite nth_error_map, Hr. reflexivity.
  - intros ->. reflexivity.
Qed.

Lemma list_appointments_returns_every_row_witness :
  exists items,
    fst (AppointmentApi.serve strict list_appointments fresh_world) =
      Json 200 (JArr items) /\ items = [].
Proof.
  destruct (list_appointments_returns_every_row strict fresh_world empty_table
              JNull eq_refl eq_refl) as [items [H1 [_ [_ H2]]]].
  exists items. split; [exact H1 | exact (H2 eq_refl)].
Defined.

(** *** pulumi/__main__.py: configuration *)

Lemma or_default_not_empty (v : option string) (d : string) :
  d <> "" -> Infrastructure.or_default v d <> "".
Proof.
  intros Hd. unfold Infrastructure.or_default.
  destruct v as [s|]; [|exact Hd].
  destruct (String.eqb s "") eqn:E; [exact Hd|].
  apply String.eqb_neq. exact E.
Qed.

(** X16.  The configuration block fails when the project is not set, and
    otherwise when node-count is set to something that is no integer.  When
    it succeeds, region, zone, cluster name and machine type are never
    empty: a key that is not set or set to the empty string gets its
    default.  The node count is never 0: a node-count of 0 is replaced by 3
    like a node-count that is not set, and any other integer is kept. *)
Theorem configuration_defaults (int : string -> option Z)
        (cfg gcp_config : Infrastructure.config) :
  (gcp_config "project" = None ->
   Infrastructure.load int cfg gcp_config =
     inl (Infrastructure.ConfigMissingError "project")) /\
  (forall p v, gcp_config "project" = Some p ->
               cfg "node-count" = Some v -> int v = None ->
   Infrastructure.load int cfg gcp_config =
     inl (Infrastructure.ConfigTypeError "node-count")) /\
  (forall s,
      Infrastructure.load int cfg gcp_config = inr s ->
      gcp_config "project" = Some (Infrastructure.project_id s) /\
      Infrastructure.region s <> "" /\
      Infrastructure.zone s <> "" /\
      Infrastructure.cluster_name s <> "" /\
      Infrastructure.machine_type s <> "" /\
      Infrastructure.node_count s <> 0 /\
      (gcp_config "region" = None \/ gcp_config "region" = Some "" ->
       Infrastructure.region s = "us-central1") /\
      (gcp_config "zone" = None \/ gcp_config "zone" = Some "" ->
       Infrastructure.zone s = "us-central1-a") /\
      (cfg "cluster-name" = None \/ cfg "cluster-name" = Some "" ->
       Infrastructure.cluster_name s = "hospital-gke") /\
      (cfg "machine-type" = None \/ cfg "machine-type" = Some "" ->
       Infrastructure.machine_type s = "e2-standard-2") /\
      (cfg "node-count" = None -> Infrastructure.node_count s = 3) /\
      (forall v n, cfg "node-count" = Some v -> int v = Some n ->
                   Infrastructure.node_count s = if n =? 0 then 3 else n)).
Proof.
  unfold Infrastructure.load, Infrastructure.get_int.
  split; [|split].
  - intros ->. reflexivity.
  - intros p v -> -> ->. reflexivity.
  - intros s. destruct (gcp_config "project") as [p|]; [|discriminate].
    destruct (cfg "node-count") as [v|] eqn:Hn.
    + destruct (int v) as [n|] eqn:Hi; [|discriminate].
      intros H. injection H as <-. simpl.
      split; [reflexivity|].
      repeat split;
        try (apply or_default_not_empty; discriminate);
        try (intros [-> | ->]; reflexivity);
        try discriminate.
      * destruct (Z.eqb_spec n 0); [discriminate | assumption].
      * intros v' n' Hv Hi'. injection Hv as <-. rewrite Hi in Hi'.
        injection Hi' as <-. reflexivity.
    + intros H. injection H as <-. simpl.
      split; [reflexivity|].
      repeat split;
        try (apply or_default_not_empty; discriminate);
        try (intros [-> | ->]; reflexivity);
        try discriminate.
Qed.

Lemma configuration_defaults_witness :
  exists s,
    Infrastructure.load Infrastructure.decimal Infrastructure.zero_nodes
      Infrastructure.only_project = inr s /\
    Infrastructure.node_count s = 3 /\
    Infrastructure.region s = "us-central1".
Proof.
  destruct (configuration_defaults Infrastructure.decimal
              Infrastructure.zero_nodes Infrastructure.only_project)
    as [_ [_ H]].
  eexists. split; [reflexivity|].
  destruct (H _ eq_refl) as [_ [_ [_ [_ [_ [_ [Hr [_ [_ [_ [_ Hn]]]]]]]]]]].
  split; [exact (Hn "0" 0 eq_refl eq_refl) | exact (Hr (or_introl eq_refl))].
Defined.

(** *** Commits *)

(** X17.  A create view calls [conn.commit()] exactly once when it answers
    200 and not at all when it fails, whatever the reason of the failure;
    a list view never commits. *)
Theorem commit_exactly_on_success (cv : conversions) (req : request)
        (w : world) :
  (let run := handle (PatientApi.add_patient cv req) w in
   commits (new_events w (snd run)) =
     if status_of (fst run) =? 200 then 1%nat else 0%nat) /\
  (let run := handle (AppointmentApi.add_appointment cv req) w in
   commits (new_events w (snd run)) =
     if status_of (fst run) =? 200 then 1%nat else 0%nat) /\
  commits (new_events w (snd (handle (PatientApi.get_patients cv) w))) = 0%nat /\
  commits (new_events w (snd (handle (AppointmentApi.get_appointments cv) w)))
    = 0%nat.
Proof.
  unfold handle.
  rewrite add_patient_cases, add_appointment_cases, get_patients_cases,
    get_appointments_cases.
  assert (E0 : new_events w w = []).
  { unfold new_events. apply skipn_all. }
  assert (E1 : new_events w (log EvRefused w) = [EvRefused])
    by apply new_events_log.
  split; [|split; [|split]].
  - destruct (json_body req); cbv zeta; simpl; rewrite ?E0; try reflexivity.
    destruct (up w); [|simpl; rewrite E1; reflexivity].
    destruct (patients w) as [t|];
      [|simpl; erewrite new_events_app by reflexivity; reflexivity].
    destruct (bind_varchar cv 255 _);
      [|simpl; erewrite new_events_app by reflexivity; reflexivity].
    destruct (bind_int cv _);
      [|simpl; erewrite new_events_app by reflexivity; reflexivity].
    destruct (insert _ _ t) as [t' [j| |]];
      simpl; erewrite new_events_app by reflexivity; reflexivity.
  - destruct (json_body req); cbv zeta; simpl; rewrite ?E0; try reflexivity.
    destruct (up w); [|simpl; rewrite E1; reflexivity].
    destruct (appointments w) as [t|];
      [|simpl; erewrite new_events_app by reflexivity; reflexivity].
    destruct (bind_int cv _);
      [|simpl; erewrite new_events_app by reflexivity; reflexivity].
    destruct (bind_varchar cv 255 _);
      [|simpl; erewrite new_events_app by reflexivity; reflexivity].
    destruct (bind_date cv _);
      [|simpl; erewrite new_events_app by reflexivity; reflexivity].
    destruct (bind_time cv _);
      [|simpl; erewrite new_events_app by reflexivity; reflexivity].
    destruct (insert _ _ t) as [t' [j| |]];
      simpl; erewrite new_events_app by reflexivity; reflexivity.
  - destruct (up w); [|simpl; rewrite E1; reflexivity].
    destruct (patients w);
      simpl; erewrite new_events_app by reflexivity; reflexivity.
  - destruct (up w); [|simpl; rewrite E1; reflexivity].
    destruct (appointments w);
      simpl; erewrite new_events_app by reflexivity; reflexivity.
Qed.
